(** * VTLookupV3: a shallow embedding of msticpy/sectools/vtlookupv3.py

    The module is glue between three collaborators: the VirusTotal client
    ([vt.Client]), the pandas table engine and the graph service
    ([VTGraph]).  The embedding keeps the control flow of every method of
    [VTLookupV3] as it is written (guards, [try]/[except]/[finally],
    early returns) and threads the client object and a trace of every
    call that leaves the module through a small state-and-exception monad.

    - Python exceptions are values of [exn]; a computation ends in
      [Return] or [Raise].
    - The remote API is a pair of oracles, [api_get_object] and
      [api_iterator], that may look at the whole client state (open or
      closed connection, earlier calls) to decide their answer; the
      graph service is an oracle, [api_graph_call], that lets each call
      made to it return or raise.
    - pandas frames are records of index level names, column labels and
      rows; a row is a finite map from labels to cells.  The default
      index is positional, and JSON payloads are built from null,
      integers, strings and objects. *)

From Stdlib Require Import ZArith List Permutation Lia.
From stdpp Require Import base option list gmap strings pretty.

Open Scope string_scope.
Open Scope list_scope.
Open Scope Z_scope.

(** ** Enumerations of the module *)

Inductive VTEntityType := FILE | DOMAIN | IP_ADDRESS | URL.

#[global] Instance VTEntityType_eq_dec : EqDecision VTEntityType.
Proof. solve_decision. Defined.

Module ColumnNames.
Definition ID := "id".
Definition TYPE := "type".
Definition DETECTIONS := "detections".
Definition SCANS := "scans".
Definition SOURCE := "source".
Definition TARGET := "target".
Definition RELATIONSHIP_TYPE := "relationship_type".
Definition SOURCE_TYPE := "source_type".
Definition TARGET_TYPE := "target_type".
End ColumnNames.

Module VTObjectPorperties.
Definition ATTRIBUTES := "attributes".
Definition RELATIONSHIPS := "relationship".
Definition LAST_ANALYSIS_STATS := "last_analysis_stats".
Definition MALICIOUS := "malicious".
End VTObjectPorperties.

(** ** Python values *)

(** Payloads of the remote API: JSON null, integers, strings and objects.
    A JSON object is an association list in key order.  Booleans, numbers
    with a fractional part and arrays are not represented: what is said
    of payloads below is said of these four shapes. *)
#[warnings="-register-all"]
Inductive json :=
| JNull
| JInt (z : Z)
| JStr (s : string)
| JDict (d : list (string * json)).

(** Cells of a frame, and the scalars handed to the public methods.
    [VNone] is the missing value (None or NaN). *)
Inductive value :=
| VNone
| VInt (z : Z)
| VStr (s : string).

#[global] Instance value_eq_dec : EqDecision value.
Proof. solve_decision. Defined.

Inductive exn :=
| KeyError (msg : string)
| ValueError (msg : string)
| TypeError (msg : string)
| AttributeError (msg : string)
| Exception (msg : string).

Inductive outcome (A : Type) :=
| Return (a : A)
| Raise (e : exn).
Arguments Return {A} a.
Arguments Raise {A} e.

Definition is_Return {A} (o : outcome A) : bool :=
  match o with Return _ => true | Raise _ => false end.

(** Sequencing of steps that may raise. *)
Definition obind {A B} (o : outcome A) (k : A → outcome B) : outcome B :=
  match o with
  | Return a => k a
  | Raise e => Raise e
  end.

Notation "'let?' x ':=' o 'in' k" := (obind o (fun x => k))
  (at level 10, x binder, o at level 200, k at level 200, only parsing).

(** [str(v)], as used by the f-strings of the module. *)
Definition py_str (v : value) : string :=
  match v with
  | VNone => "nan"
  | VInt z => pretty z
  | VStr s => s
  end.

(** [repr(v)], as used by the message of the enumeration constructor.  A
    [string] stands for the Python string with the same code points, all
    below 256.  The quote is the single one, unless the string holds a
    single quote and no double quote; the quote and the backslash are
    escaped, tab, newline and carriage return are written [\t], [\n]
    and [\r], and the other code points that are not printable (below
    32, 127, 128 to 160 and 173) are written [\xNN]. *)
Definition single_quote : Ascii.ascii := Ascii.ascii_of_N 39.
Definition double_quote : Ascii.ascii := Ascii.ascii_of_N 34.
Definition backslash : Ascii.ascii := Ascii.ascii_of_N 92.

Definition hex_digit (n : N) : Ascii.ascii :=
  Ascii.ascii_of_N (if (n <? 10)%N then 48 + n else 87 + n)%N.

Definition printable (n : N) : bool :=
  negb ((n <? 32)%N || (n =? 127)%N || ((128 <=? n)%N && (n <=? 160)%N) || (n =? 173)%N).

Definition repr_char (quote c : Ascii.ascii) : string :=
  let n := Ascii.N_of_ascii c in
  if bool_decide (c = quote ∨ c = backslash) then String backslash (String c "")
  else if (n =? 9)%N then String backslash "t"
  else if (n =? 10)%N then String backslash "n"
  else if (n =? 13)%N then String backslash "r"
  else if printable n then String c ""
  else String backslash
         ("x" +:+ String (hex_digit (n / 16)) (String (hex_digit (n mod 16)) "")).

Fixpoint repr_chars (quote : Ascii.ascii) (s : string) : string :=
  match s with
  | EmptyString => ""
  | String c s' => repr_char quote c +:+ repr_chars quote s'
  end.

Fixpoint contains (c : Ascii.ascii) (s : string) : bool :=
  match s with
  | EmptyString => false
  | String c' s' => bool_decide (c = c') || contains c s'
  end.

Definition py_repr (v : value) : string :=
  match v with
  | VNone => "nan"
  | VInt z => pretty z
  | VStr s =>
      let quote := if contains single_quote s && negb (contains double_quote s)
                   then double_quote else single_quote in
      String quote (repr_chars quote s +:+ String quote "")
  end.

(** Lookup in a JSON object: the first binding of the key. *)
Fixpoint dict_get (k : string) (d : list (string * json)) : option json :=
  match d with
  | [] => None
  | (k', v) :: d' => if bool_decide (k = k') then Some v else dict_get k d'
  end.

Definition dict_values (d : list (string * json)) : list json := map snd d.

(** [obj[k]] on a JSON value. *)
Definition py_getitem (j : json) (k : string) : outcome json :=
  match j with
  | JDict d =>
      match dict_get k d with
      | Some v => Return v
      | None => Raise (KeyError k)
      end
  | _ => Raise (TypeError "object is not subscriptable")
  end.

(** [sum(d.values())]: integers add up, anything else is a [TypeError]. *)
Fixpoint py_sum (l : list json) : outcome Z :=
  match l with
  | [] => Return 0
  | JInt z :: l' =>
      match py_sum l' with
      | Return s => Return (z + s)
      | Raise e => Raise e
      end
  | _ :: _ => Raise (TypeError "unsupported operand type(s) for +")
  end.

Definition cell_of_json (j : json) : value :=
  match j with
  | JInt z => VInt z
  | JStr s => VStr s
  | JNull | JDict _ => VNone
  end.

(** ** The [VTEntityType] constructor

    [VTEntityType(x)] looks a member up by its value; applied to a member
    it returns the member.  Any other argument is a [ValueError]. *)

Definition VTEntityType_value (t : VTEntityType) : string :=
  match t with
  | FILE => "file"
  | DOMAIN => "domain"
  | IP_ADDRESS => "ip_address"
  | URL => "url"
  end.

Definition VTEntityType_members : list VTEntityType :=
  [FILE; DOMAIN; IP_ADDRESS; URL].

Definition VTEntityType_of_string (s : string) : option VTEntityType :=
  find (fun t => bool_decide (VTEntityType_value t = s)) VTEntityType_members.

Definition VTEntityType_call (x : value + VTEntityType) : outcome VTEntityType :=
  match x with
  | inr t => Return t
  | inl (VStr s) =>
      match VTEntityType_of_string s with
      | Some t => Return t
      | None => Raise (ValueError (py_repr (VStr s) +:+ " is not a valid VTEntityType"))
      end
  | inl v => Raise (ValueError (py_repr v +:+ " is not a valid VTEntityType"))
  end.

Definition py_str_arg (x : value + VTEntityType) : string :=
  match x with
  | inl v => py_str v
  | inr t => "VTEntityType." +:+ match t with
                                | FILE => "FILE"
                                | DOMAIN => "DOMAIN"
                                | IP_ADDRESS => "IP_ADDRESS"
                                | URL => "URL"
                                end
  end.

(** ** Class constants of [VTLookupV3] *)

Definition _SUPPORTED_VT_TYPES : list VTEntityType :=
  [FILE; URL; IP_ADDRESS; DOMAIN].

Definition _MAPPING_TYPES_ENDPOINT : list (VTEntityType * string) :=
  [(FILE, "files"); (URL, "urls"); (IP_ADDRESS, "ip_addresses"); (DOMAIN, "domains")].

(** The per-type property sets; a Python set has no fixed iteration
    order, the lists below fix the order of the source text. *)
Definition _BASIC_PROPERTIES_PER_TYPE : list (VTEntityType * list string) :=
  [(FILE, ["type_description"; "size"; "first_submission_date";
           "last_submission_date"; "times_submitted"; "meaningful_name"]);
   (URL, ["first_submission_date"; "last_submission_date"; "times_submitted"]);
   (IP_ADDRESS, ["date"; "country"; "asn"; "as_owner"]);
   (DOMAIN, ["id"; "creation_date"; "last_update_date"; "country"])].

Fixpoint assoc {A} (t : VTEntityType) (l : list (VTEntityType * A)) : option A :=
  match l with
  | [] => None
  | (t', a) :: l' => if bool_decide (t = t') then Some a else assoc t l'
  end.

Definition supported (t : VTEntityType) : bool :=
  bool_decide (t ∈ _SUPPORTED_VT_TYPES).

Definition _get_endpoint_name (vt_type : value + VTEntityType) : outcome string :=
  match VTEntityType_call vt_type with
  | Raise e => Raise e
  | Return t =>
      if negb (supported t)
      then Raise (KeyError ("Property type " +:+ py_str_arg vt_type +:+ " not supported"))
      else match assoc t _MAPPING_TYPES_ENDPOINT with
           | Some ep => Return ep
           | None => Raise (KeyError (VTEntityType_value t))
           end
  end.

(** ** Frames

    [index] holds the names of the index levels ([[]] is the default
    positional index), [columns] the column labels in order, and every
    row maps a label (index level or column) to its cell; a label without
    a binding is a missing cell. *)

Record DataFrame := mkDataFrame {
  index : list string;
  columns : list string;
  rows : list (gmap string value)
}.

Module pd.

(** [pd.DataFrame()] *)
Definition DataFrame_ : DataFrame :=
  {| index := []; columns := []; rows := [] |}.

Definition add_column (c : string) (cols : list string) : list string :=
  if bool_decide (c ∈ cols) then cols else cols ++ [c].

(** [df[c] = v] with a scalar [v]: the cell is set in every row. *)
Definition setitem (c : string) (v : value) (df : DataFrame) : DataFrame :=
  {| index := index df;
     columns := add_column c (columns df);
     rows := map (fun r => <[c := v]> r) (rows df) |}.

(** [df[c] = vs] with a list: on the frame without rows and columns the
    list creates the rows, otherwise its length has to match. *)
Definition setitem_list (c : string) (vs : list value) (df : DataFrame)
  : outcome DataFrame :=
  if bool_decide (length vs = length (rows df)) then
    Return {| index := index df;
              columns := add_column c (columns df);
              rows := zip_with (fun v r => <[c := v]> r) vs (rows df) |}
  else
    match rows df, columns df with
    | [], [] =>
        Return {| index := index df;
                  columns := [c];
                  rows := map (fun v => {[ c := v ]}) vs |}
    | _, _ => Raise (ValueError "Length of values does not match length of index")
    end.

(** [df.set_index(keys)]: the named columns become the index, the old
    index is dropped. *)
Definition set_index (keys : list string) (df : DataFrame) : outcome DataFrame :=
  match filter (fun k => k ∉ columns df) keys with
  | [] =>
      Return {| index := keys;
                columns := filter (fun c => c ∉ keys) (columns df);
                rows := map (fun r => foldr delete r (index df)) (rows df) |}
  | k :: _ => Raise (KeyError k)
  end.

(** [df.reset_index()]: the index levels become the first columns; the
    default index becomes a column ["index"] (["level_0"] when that
    label is taken) holding the row positions.  A label that is already
    a column cannot be inserted. *)
Definition reset_index (df : DataFrame) : outcome DataFrame :=
  match index df with
  | [] =>
      let c := if bool_decide ("index" ∈ columns df) then "level_0" else "index" in
      if bool_decide (c ∈ columns df)
      then Raise (ValueError ("cannot insert " +:+ c +:+ ", already exists"))
      else Return {| index := [];
                     columns := c :: columns df;
                     rows := imap (fun i r => <[c := VInt (Z.of_nat i)]> r) (rows df) |}
  | names =>
      match filter (fun n => n ∈ columns df) names with
      | [] => Return {| index := []; columns := names ++ columns df; rows := rows df |}
      | n :: _ => Raise (ValueError ("cannot insert " +:+ n +:+ ", already exists"))
      end
  end.

Fixpoint rename_label (mapping : list (string * string)) (c : string) : string :=
  match mapping with
  | [] => c
  | (old, new) :: mapping' =>
      if bool_decide (c = old) then new else rename_label mapping' c
  end.

(** [df.rename(columns=mapping)] *)
Definition rename (mapping : list (string * string)) (df : DataFrame) : DataFrame :=
  {| index := index df;
     columns := map (rename_label mapping) (columns df);
     rows := map (fun r => kmap (rename_label mapping) r) (rows df) |}.

(** [pd.concat(objs)]: frames without rows and columns are left out
    when another frame is given; rows are appended in order, the columns
    are the union of the columns in order of first appearance.  Frames
    with the same index levels keep them; otherwise the result has the
    default index. *)
Definition concat_columns (dfs : list DataFrame) : list string :=
  foldl (fun acc df => foldl (fun acc c => add_column c acc) acc (columns df)) [] dfs.

(** [sum(obj.shape) > 0] *)
Definition non_empty (obj : DataFrame) : bool :=
  negb (bool_decide (rows obj = [] ∧ columns obj = [])).

Definition kept (objs : list DataFrame) : list DataFrame :=
  match List.filter non_empty objs with
  | [] => objs
  | non_empties => non_empties
  end.

Definition common_index (objs : list DataFrame) : list string :=
  match objs with
  | [] => []
  | df :: dfs' =>
      if forallb (fun d => bool_decide (index d = index df)) dfs' then index df else []
  end.

Definition concat (objs : list DataFrame) : outcome DataFrame :=
  match kept objs with
  | [] => Raise (ValueError "No objects to concatenate")
  | objs => Return {| index := common_index objs;
                      columns := concat_columns objs;
                      rows := concat (map rows objs) |}
  end.

(** [pd.json_normalize(data=[obj])]: one row; nested objects are
    flattened into dotted labels. *)
Fixpoint flatten (label : string) (j : json) : list (string * value) :=
  match j with
  | JDict d =>
      (fix go (d : list (string * json)) : list (string * value) :=
         match d with
         | [] => []
         | (k, v) :: d' => flatten (label +:+ "." +:+ k) v ++ go d'
         end) d
  | _ => [(label, cell_of_json j)]
  end.

Definition json_normalize (obj : list (string * json)) : DataFrame :=
  let cells := flat_map (fun kv => flatten (fst kv) (snd kv)) obj in
  {| index := [];
     columns := foldl (fun acc kv => add_column (fst kv) acc) [] cells;
     rows := [list_to_map (reverse cells)] |}.

(** Order of group keys: numbers before strings, strings by code point. *)
Definition key_leb (a b : value) : bool :=
  match a, b with
  | VNone, _ => true
  | _, VNone => false
  | VInt x, VInt y => (x <=? y)%Z
  | VInt _, VStr _ => true
  | VStr _, VInt _ => false
  | VStr x, VStr y => String.leb x y
  end.

Fixpoint insert_sorted (kv : value * value) (l : list (value * value))
  : list (value * value) :=
  match l with
  | [] => [kv]
  | kv' :: l' =>
      if key_leb (fst kv) (fst kv') then kv :: l else kv' :: insert_sorted kv l'
  end.

Definition sort_groups (l : list (value * value)) : list (value * value) :=
  foldr insert_sorted [] l.

(** The groups of [groupby(key)[col].first()] in order of first
    appearance: rows whose key is missing are left out, and a group
    takes the first cell of [col] that is not missing. *)
Fixpoint upsert_first (k v : value) (groups : list (value * value))
  : list (value * value) :=
  match groups with
  | [] => [(k, v)]
  | (k', v') :: groups' =>
      if bool_decide (k = k')
      then (k', match v' with VNone => v | _ => v' end) :: groups'
      else (k', v') :: upsert_first k v groups'
  end.

Definition cell (c : string) (r : gmap string value) : value :=
  default VNone (r !! c).

Definition group_step (key col : string) (groups : list (value * value))
           (r : gmap string value) : list (value * value) :=
  match cell key r with
  | VNone => groups
  | k => upsert_first k (cell col r) groups
  end.

Definition first_groups (key col : string) (rs : list (gmap string value))
  : list (value * value) :=
  foldl (group_step key col) [] rs.

(** [df.groupby(key)[col].first()]: one row per group, indexed by the
    group key, in key order. *)
Definition groupby_first (key col : string) (df : DataFrame) : outcome DataFrame :=
  if bool_decide (key ∉ columns df) then Raise (KeyError key)
  else if bool_decide (col ∉ columns df) then Raise (KeyError ("Column not found: " +:+ col))
  else Return {| index := [key];
                 columns := [col];
                 rows := map (fun kv => <[ key := fst kv ]> {[ col := snd kv ]})
                             (sort_groups (first_groups key col (rows df))) |}.

(** [pd.DataFrame(data=data, columns=cols)] *)
Definition DataFrame_of (data : list (list value)) (cols : list string) : DataFrame :=
  {| index := [];
     columns := cols;
     rows := map (fun r => list_to_map (zip cols r)) data |}.

(** [row[c]] inside [df.iterrows()] *)
Definition row_getitem (df : DataFrame) (r : gmap string value) (c : string)
  : outcome value :=
  if bool_decide (c ∈ columns df) then Return (cell c r) else Raise (KeyError c).

End pd.

(** ** Objects of the remote API *)

Record VTObject := mkVTObject {
  obj_id : string;
  obj_type : string;
  obj_attributes : option (list (string * json));
  obj_relationships : option (list (string * json))
}.

(** [vt_object.to_dict()]: the ["attributes"] key is there when the
    object carries attributes. *)
Definition to_dict (o : VTObject) : list (string * json) :=
  [("type", JStr (obj_type o)); ("id", JStr (obj_id o))]
  ++ match obj_attributes o with
     | Some a => [(VTObjectPorperties.ATTRIBUTES, JDict a)]
     | None => []
     end.

(** [response.relationships] *)
Definition relationships (o : VTObject) : outcome (list (string * json)) :=
  match obj_relationships o with
  | Some r => Return r
  | None => Raise (AttributeError "relationships")
  end.

(** ** Computations: client state, trace and exceptions *)

(** What leaves the module.  A request records whether the transport
    connection was already closed when it was issued. *)
Inductive Event :=
| EvGetObject (conn_closed : bool) (path : string)
| EvIterator (conn_closed : bool) (path : string) (batch_size : Z) (limit : json)
| EvClose
| EvPrint (msg : string)
| EvGraph (api_key name : string) (private : bool)
| EvAddNode (node_id node_type : value)
| EvAddLink (source_node target_node connection_type : value)
| EvSaveGraph.

Record VTLookupV3 := mkVTLookupV3 {
  _vt_key : string;
  closed : bool;          (* state of [_vt_client]'s connection *)
  trace : list Event      (* calls made so far, oldest first *)
}.

(** [VTLookupV3(vt_key)] *)
Definition __init__ (vt_key : string) : VTLookupV3 :=
  {| _vt_key := vt_key; closed := false; trace := [] |}.

(** A method body: it reads and updates the client, and returns or
    raises. *)
Definition M (A : Type) : Type := VTLookupV3 → outcome A * VTLookupV3.

Definition ret {A} (a : A) : M A := fun self => (Return a, self).
Definition raise {A} (e : exn) : M A := fun self => (Raise e, self).
Definition bind {A B} (m : M A) (k : A → M B) : M B :=
  fun self =>
    match m self with
    | (Return a, self') => k a self'
    | (Raise e, self') => (Raise e, self')
    end.
Definition lift {A} (o : outcome A) : M A := fun self => (o, self).

Notation "'let*' x ':=' m 'in' k" := (bind m (fun x => k))
  (at level 10, x binder, m at level 200, k at level 200, only parsing).

(** [try: body except: handler] with a bare [except]. *)
Definition try_except {A} (body handler : M A) : M A :=
  fun self =>
    match body self with
    | (Return a, self') => (Return a, self')
    | (Raise _, self') => handler self'
    end.

(** [try: body finally: cleanup] *)
Definition try_finally {A} (body : M A) (cleanup : M unit) : M A :=
  fun self =>
    match body self with
    | (r, self') =>
        match cleanup self' with
        | (Return _, self'') => (r, self'')
        | (Raise e, self'') => (Raise e, self'')
        end
    end.

Definition emit (ev : Event) : M unit :=
  fun self =>
    (Return tt, {| _vt_key := _vt_key self; closed := closed self;
                   trace := trace self ++ [ev] |}).

Definition print (msg : string) : M unit := emit (EvPrint msg).

(** [self._vt_client.close()]: the connection is closed from here on;
    nothing in the module opens it again. *)
Definition close : M unit :=
  fun self =>
    (Return tt, {| _vt_key := _vt_key self; closed := true;
                   trace := trace self ++ [EvClose] |}).

Definition get_vt_key : M string := fun self => (Return (_vt_key self), self).

Fixpoint mapM {A B} (f : A → M B) (l : list A) : M (list B) :=
  match l with
  | [] => ret []
  | a :: l' => let* b := f a in let* bs := mapM f l' in ret (b :: bs)
  end.

(** ** [_parse_vt_object] *)

Definition basic_properties (t : VTEntityType) (attributes : list (string * json))
  : list (string * json) :=
  flat_map (fun key => match dict_get key attributes with
                       | Some v => [(key, v)]
                       | None => []
                       end)
           (default [] (assoc t _BASIC_PROPERTIES_PER_TYPE)).

Definition _parse_vt_object (vt_object : VTObject) : outcome DataFrame :=
  let obj_dict := to_dict vt_object in
  let? df :=
    match dict_get VTObjectPorperties.ATTRIBUTES obj_dict with
    | Some attributes_ =>
        let? vt_type := VTEntityType_call (inl (VStr (obj_type vt_object))) in
        if negb (supported vt_type) then
          Raise (KeyError ("Property type " +:+ py_str_arg (inr vt_type)
                           +:+ " not supported"))
        else
          let? attributes := match attributes_ with
                             | JDict a => Return a
                             | _ => Raise (TypeError "argument is not iterable")
                             end in
          let obj := basic_properties vt_type attributes in
          let df := pd.json_normalize obj in
          let? last_analysis_stats :=
            py_getitem (JDict attributes) VTObjectPorperties.LAST_ANALYSIS_STATS in
          let? malicious :=
            py_getitem last_analysis_stats VTObjectPorperties.MALICIOUS in
          let df := pd.setitem ColumnNames.DETECTIONS (cell_of_json malicious) df in
          let? scans := match last_analysis_stats with
                        | JDict d => py_sum (dict_values d)
                        | _ => Raise (AttributeError "values")
                        end in
          Return (pd.setitem ColumnNames.SCANS (VInt scans) df)
    | None => Return pd.DataFrame_
    end in
  (* Inject ID and Type columns *)
  let? df := pd.setitem_list ColumnNames.ID [VStr (obj_id vt_object)] df in
  let? df := pd.setitem_list ColumnNames.TYPE [VStr (obj_type vt_object)] df in
  pd.set_index [ColumnNames.ID] df.

(** ** The methods of [VTLookupV3] *)

Section Methods.

(** The collaborators: what the remote API answers to an object fetch
    and to a paged relationship listing, whether a call to the graph
    service returns or raises, and the identifier the graph service
    assigns.  Each may depend on the client state at the call. *)
Variable api_get_object : VTLookupV3 → string → outcome VTObject.
Variable api_iterator : VTLookupV3 → string → Z → json → outcome (list VTObject).
Variable api_graph_call : VTLookupV3 → Event → outcome unit.
Variable api_graph_id : VTLookupV3 → string.

(** [self._vt_client.get_object(path)] *)
Definition get_object (path : string) : M VTObject :=
  fun self =>
    (api_get_object self path,
     {| _vt_key := _vt_key self; closed := closed self;
        trace := trace self ++ [EvGetObject (closed self) path] |}).

(** [self._vt_client.iterator(path, batch_size, limit)], consumed to
    the end. *)
Definition iterator (path : string) (batch_size : Z) (limit : json)
  : M (list VTObject) :=
  fun self =>
    (api_iterator self path batch_size limit,
     {| _vt_key := _vt_key self; closed := closed self;
        trace := trace self ++ [EvIterator (closed self) path batch_size limit] |}).

(** A call to the graph service, [VTGraph(...)], [graph.add_node(...)],
    [graph.add_link(...)] or [graph.save_graph()]: the call is made, and
    returns or raises as the service decides. *)
Definition graph_call (ev : Event) : M unit :=
  fun self =>
    (api_graph_call self ev,
     {| _vt_key := _vt_key self; closed := closed self; trace := trace self ++ [ev] |}).

Definition supported_vt_types : list VTEntityType := _SUPPORTED_VT_TYPES.

Definition not_supported (vt_type : value) : exn :=
  KeyError ("Property type " +:+ py_str vt_type +:+ " not supported").

Definition lookup_ioc (observable vt_type : value) : M DataFrame :=
  let* t := lift (VTEntityType_call (inl vt_type)) in
  if bool_decide (t ∉ supported_vt_types) then raise (not_supported vt_type)
  else
    let* t := lift (VTEntityType_call (inl vt_type)) in
    let* endpoint_name := lift (_get_endpoint_name (inr t)) in
    try_finally
      (try_except
         (let* response :=
            get_object ("/" +:+ endpoint_name +:+ "/" +:+ py_str observable) in
          lift (_parse_vt_object response))
         (raise (Exception "It was not possible to get the data")))
      close.

(** The row emitted in place of a failed lookup. *)
Definition stub (observable observable_type : value) : outcome DataFrame :=
  pd.set_index [ColumnNames.ID]
    (pd.DataFrame_of [[observable; observable_type]]
                     [ColumnNames.ID; ColumnNames.TYPE]).

Definition check_columns (what : string) (df : DataFrame) (cols : list string)
  : M (list unit) :=
  mapM (fun column =>
          if bool_decide (column ∉ columns df)
          then raise (KeyError ("Column " +:+ column +:+ " not found in " +:+ what))
          else ret tt) cols.

(** The body of the loop of [lookup_iocs]: the lookup, or the stub in
    the bare [except]. *)
Definition lookup_or_stub (item : value * value) : M DataFrame :=
  let '(observable, observable_type) := item in
  try_except
    (lookup_ioc observable observable_type)
    (let* _ := print ("ERROR	 It was not possible to obtain results for "
                      +:+ py_str observable_type +:+ " " +:+ py_str observable) in
     lift (stub observable observable_type)).

Definition lookup_iocs (observables_df : DataFrame)
           (observable_column observable_type_column : string) : M DataFrame :=
  let* _observables_df := lift (pd.reset_index observables_df) in
  let* _ := check_columns "observables_df" _observables_df
                          [observable_column; observable_type_column] in
  let observables_list := map (pd.cell observable_column) (rows _observables_df) in
  let types_list := map (pd.cell observable_type_column) (rows _observables_df) in
  let* dfs := mapM lookup_or_stub (zip observables_list types_list) in
  if bool_decide (0 < length dfs)%nat then lift (pd.concat dfs) else ret pd.DataFrame_.

Fixpoint omapM {A B} (f : A → outcome B) (l : list A) : outcome (list B) :=
  match l with
  | [] => Return []
  | a :: l' => let? b := f a in let? bs := omapM f l' in Return (b :: bs)
  end.

(** The first [try] of [lookup_ioc_relationships], entered when no limit
    is given: it either returns early ([inl]) or goes on with an endpoint
    and a limit ([inr]). *)
Definition resolve_limit (observable vt_type : value) (relationship : string)
           (endpoint_name : string) (limit : json)
  : M (DataFrame + string * json) :=
  match limit with
  | JNull =>
      let* t := lift (VTEntityType_call (inl vt_type)) in
      let* endpoint_name := lift (_get_endpoint_name (inr t)) in
      try_except
        (let* response :=
           get_object ("/" +:+ endpoint_name +:+ "/" +:+ py_str observable
                       +:+ "?relationship_counters=true") in
         let* relationships := lift (relationships response) in
         let* limit :=
           if bool_decide (is_Some (dict_get relationship relationships))
           then lift (let? r := py_getitem (JDict relationships) relationship in
                      let? meta := py_getitem r "meta" in
                      py_getitem meta "count")
           else ret (JInt 0) in
         ret (inr (endpoint_name, limit)))
        (let* _ := print ("ERROR: Could not obtain relationship limit for "
                          +:+ py_str vt_type +:+ " " +:+ py_str observable) in
         ret (inl pd.DataFrame_))
  | _ => ret (inr (endpoint_name, limit))
  end.

(** The second [try] of [lookup_ioc_relationships]: the paging request,
    the flattening of the related objects and the source columns, with
    the close in its [finally]. *)
Definition page_relationships (observable vt_type : value) (relationship : string)
           (endpoint_name : string) (limit : json) : M DataFrame :=
  try_finally
    (try_except
       (let* response :=
          iterator ("/" +:+ endpoint_name +:+ "/" +:+ py_str observable
                    +:+ "/relationships/" +:+ relationship) 40 limit in
        let* objects := lift (omapM _parse_vt_object response) in
        let* df := if bool_decide (0 < length objects)%nat
                   then lift (pd.concat objects) else ret pd.DataFrame_ in
        if bool_decide (0 < length objects)%nat then
          (* Inject source and target columns *)
          let df := pd.setitem ColumnNames.SOURCE observable df in
          let* t := lift (VTEntityType_call (inl vt_type)) in
          let df := pd.setitem ColumnNames.SOURCE_TYPE
                               (VStr (VTEntityType_value t)) df in
          let df := pd.setitem ColumnNames.RELATIONSHIP_TYPE
                               (VStr relationship) df in
          let* df := lift (pd.reset_index df) in
          let df := pd.rename
                      [(ColumnNames.ID, ColumnNames.TARGET);
                       (ColumnNames.TYPE, ColumnNames.TARGET_TYPE)] df in
          lift (pd.set_index [ColumnNames.SOURCE; ColumnNames.TARGET] df)
        else ret df)
       (raise (Exception "It was not possible to get the data")))
    close.

Definition lookup_ioc_relationships (observable vt_type : value)
           (relationship : string) (limit : json) : M DataFrame :=
  let* t := lift (VTEntityType_call (inl vt_type)) in
  if bool_decide (t ∉ supported_vt_types) then raise (not_supported vt_type)
  else
    let* endpoint_name := lift (_get_endpoint_name (inl vt_type)) in
    let* resolved := resolve_limit observable vt_type relationship endpoint_name limit in
    match resolved with
    | inl df => ret df
    | inr (endpoint_name, limit) =>
        match limit with
        | JInt 0 | JNull => ret pd.DataFrame_
        | _ => page_relationships observable vt_type relationship endpoint_name limit
        end
    end.

(** The body of the loop of [lookup_iocs_relationships]. *)
Definition relationships_or_stub (relationship : string) (limit : json)
           (item : value * value) : M DataFrame :=
  let '(observable, observable_type) := item in
  try_except
    (lookup_ioc_relationships observable observable_type relationship limit)
    (let* _ := print ("ERROR:	 It was not possible to get the data for "
                      +:+ py_str observable_type +:+ " " +:+ py_str observable) in
     lift (stub observable observable_type)).

Definition lookup_iocs_relationships (observables_df : DataFrame)
           (relationship : string)
           (observable_column observable_type_column : string)
           (limit : json) : M DataFrame :=
  let* _observables_df := lift (pd.reset_index observables_df) in
  let* _ := check_columns "observables df" _observables_df
                          [observable_column; observable_type_column] in
  let observables_list := map (pd.cell observable_column) (rows _observables_df) in
  let types_list := map (pd.cell observable_type_column) (rows _observables_df) in
  let* dfs := mapM (relationships_or_stub relationship limit)
                   (zip observables_list types_list) in
  if bool_decide (0 < length dfs)%nat then lift (pd.concat dfs) else ret pd.DataFrame_.

(** [df.groupby(key)[col].first().reset_index().rename(...)]: the node
    table of one side of the edges. *)
Definition nodes_of (key col : string) (concatenated_df : DataFrame)
  : outcome DataFrame :=
  let? g := pd.groupby_first key col concatenated_df in
  let? g := pd.reset_index g in
  Return (pd.rename [(key, ColumnNames.ID); (col, ColumnNames.TYPE)] g).

Definition add_node (nodes_df : DataFrame) (row : gmap string value) : M unit :=
  let* node_id := lift (pd.row_getitem nodes_df row ColumnNames.ID) in
  let* node_type := lift (pd.row_getitem nodes_df row ColumnNames.TYPE) in
  graph_call (EvAddNode node_id node_type).

Definition add_link (concatenated_df : DataFrame) (row : gmap string value) : M unit :=
  let* source_node := lift (pd.row_getitem concatenated_df row ColumnNames.SOURCE) in
  let* target_node := lift (pd.row_getitem concatenated_df row ColumnNames.TARGET) in
  let* connection_type :=
    lift (pd.row_getitem concatenated_df row ColumnNames.RELATIONSHIP_TYPE) in
  graph_call (EvAddLink source_node target_node connection_type).

Definition create_vt_graph (relationship_dfs : list DataFrame) (name : string)
           (private : bool) : M string :=
  if bool_decide (length relationship_dfs = 0%nat)
  then raise (ValueError "There are no relationship DataFrames")
  else
    let* concatenated_df := lift (let? c := pd.concat relationship_dfs in
                                  pd.reset_index c) in
    (* Create nodes DF, with source and target *)
    let* sources_df :=
      lift (nodes_of ColumnNames.SOURCE ColumnNames.SOURCE_TYPE concatenated_df) in
    let* target_df :=
      lift (nodes_of ColumnNames.TARGET ColumnNames.TARGET_TYPE concatenated_df) in
    let* nodes_df := lift (pd.concat [sources_df; target_df]) in
    let* vt_key := get_vt_key in
    let* _ := graph_call (EvGraph vt_key name private) in
    let* _ := mapM (add_node nodes_df) (rows nodes_df) in
    let* _ := mapM (add_link concatenated_df) (rows concatenated_df) in
    let* _ := graph_call EvSaveGraph in
    fun self => (Return (api_graph_id self), self).

End Methods.

(** ** Mocked collaborators, for the concrete runs below *)

Module Mock.

(** The object of the lookup example: a file with two verdict counts. *)
Definition abc123 : VTObject :=
  {| obj_id := "abc123";
     obj_type := "file";
     obj_attributes :=
       Some [("type_description", JStr "PE32");
             ("size", JInt 1024);
             ("last_analysis_stats",
              JDict [("malicious", JInt 3); ("harmless", JInt 60)])];
     obj_relationships := Some [("contacted_domains",
                                 JDict [("meta", JDict [("count", JInt 1)])])] |}.

(** A domain whose attributes lack the verdict counts. *)
Definition example_org : VTObject :=
  {| obj_id := "example.org";
     obj_type := "domain";
     obj_attributes := Some [("country", JStr "US")];
     obj_relationships := None |}.

Definition domain_b : VTObject :=
  {| obj_id := "b.example";
     obj_type := "domain";
     obj_attributes := None;
     obj_relationships := None |}.

(** A backend that knows two objects and answers whatever the state
    of the connection. *)
Definition get_object (self : VTLookupV3) (path : string) : outcome VTObject :=
  if bool_decide (path = "/files/abc123") then Return abc123
  else if bool_decide (path = "/files/abc123?relationship_counters=true") then Return abc123
  else if bool_decide (path = "/domains/example.org") then Return example_org
  else Raise (Exception "NotFoundError").

Definition iterator (self : VTLookupV3) (path : string) (batch_size : Z) (limit : json)
  : outcome (list VTObject) :=
  if bool_decide (path = "/files/abc123/relationships/contacted_domains")
  then Return [domain_b]
  else Raise (Exception "NotFoundError").

(** A graph service that accepts every call. *)
Definition graph_call (self : VTLookupV3) (ev : Event) : outcome unit := Return tt.

Definition graph_id (self : VTLookupV3) : string := "g0123".

Definition client : VTLookupV3 := __init__ "apikey".

Definition edge (s st t tt r : string) : gmap string value :=
  list_to_map [("source", VStr s); ("source_type", VStr st);
               ("target", VStr t); ("target_type", VStr tt);
               ("relationship_type", VStr r)].

Definition edges (rs : list (gmap string value)) : DataFrame :=
  {| index := ["source"; "target"];
     columns := ["target_type"; "source_type"; "relationship_type"];
     rows := rs |}.

(** file A contacted domain B; domain B resolves to address C. *)
Definition table1 : DataFrame := edges [edge "A" "file" "B" "domain" "contacted_domains"].
Definition table2 : DataFrame := edges [edge "B" "domain" "C" "ip_address" "resolutions"].

Definition indicator (v k : string) : gmap string value :=
  list_to_map [("target", VStr v); ("target_type", VStr k)].

Definition indicators (rs : list (gmap string value)) : DataFrame :=
  {| index := []; columns := ["target"; "target_type"]; rows := rs |}.

(** A table without the kind column. *)
Definition values_only : DataFrame :=
  {| index := []; columns := ["target"]; rows := [{[ "target" := VStr "abc123" ]}] |}.

(** The frame after [reset_index], for tables on which it succeeds. *)
Definition reset (df : DataFrame) : DataFrame :=
  match pd.reset_index df with
  | Return df' => df'
  | Raise _ => pd.DataFrame_
  end.

End Mock.

(** ** Vocabulary of the statements *)

(** The endpoint of a kind, read off [_MAPPING_TYPES_ENDPOINT]. *)
Definition endpoint (t : VTEntityType) : string :=
  match t with
  | FILE => "files"
  | URL => "urls"
  | IP_ADDRESS => "ip_addresses"
  | DOMAIN => "domains"
  end.

(** The paths the methods build: object fetch, metadata fetch, paging. *)
Definition object_path (t : VTEntityType) (observable : value) : string :=
  "/" +:+ endpoint t +:+ "/" +:+ py_str observable.

(** The client after one fetch and the close that follows it. *)
Definition after_fetch (self : VTLookupV3) (path : string) : VTLookupV3 :=
  {| _vt_key := _vt_key self; closed := true;
     trace := trace self ++ [EvGetObject (closed self) path; EvClose] |}.

(** The generic exception of the two single-item methods. *)
Definition lookup_failed : exn := Exception "It was not possible to get the data".

Definition counters_path (t : VTEntityType) (observable : value) : string :=
  "/" +:+ endpoint t +:+ "/" +:+ py_str observable +:+ "?relationship_counters=true".

Definition relationships_path (endpoint_name : string) (observable : value)
           (relationship : string) : string :=
  "/" +:+ endpoint_name +:+ "/" +:+ py_str observable
  +:+ "/relationships/" +:+ relationship.

(** The paging requests of a trace. *)
Definition is_paging (ev : Event) : bool :=
  match ev with EvIterator _ _ _ _ => true | _ => false end.

(** The row of a stub: identifier and kind, nothing else. *)
Definition stub_row (item : value * value) : gmap string value :=
  list_to_map [(ColumnNames.ID, item.1); (ColumnNames.TYPE, item.2)].

(** [result] is what a call of [lookup_ioc] on [item] returned or raised. *)
Definition outcome_of (api_get_object : VTLookupV3 → string → outcome VTObject)
           (item : value * value) (result : outcome DataFrame) : Prop :=
  ∃ self, result = fst (lookup_ioc api_get_object item.1 item.2 self).

(** The row an item contributes: the record of a lookup that returned,
    the stub of one that raised. *)
Definition contributes (lookup : (value * value) * outcome DataFrame)
           (row : gmap string value) : Prop :=
  match lookup.2 with
  | Return record => rows record = [row]
  | Raise _ => row = stub_row lookup.1
  end.

(** A computation that leaves the client as it found it. *)
Definition pure {A} (m : M A) : Prop := ∀ self, (m self).2 = self.

(** The client after [evs] more events, the connection as it was. *)
Definition extend (self : VTLookupV3) (evs : list Event) : VTLookupV3 :=
  {| _vt_key := _vt_key self; closed := closed self; trace := trace self ++ evs |}.

(** The client after [evs], a paging request and the close. *)
Definition after_paging (self : VTLookupV3) (evs : list Event) (paging : Event)
  : VTLookupV3 :=
  {| _vt_key := _vt_key self; closed := true;
     trace := trace self ++ evs ++ [paging; EvClose] |}.

(** The events between two states of the client. *)
Definition since (self self' : VTLookupV3) : list Event :=
  drop (length (trace self)) (trace self').

(** The state of the connection at each request of a trace. *)
Definition requests (evs : list Event) : list bool :=
  flat_map (fun ev => match ev with
                      | EvGetObject c _ | EvIterator c _ _ _ => [c]
                      | _ => []
                      end) evs.

(** The identifiers handed to [graph.add_node], in call order. *)
Definition node_ids (evs : list Event) : list value :=
  flat_map (fun ev => match ev with EvAddNode node_id _ => [node_id] | _ => [] end) evs.

(** The calls [create_vt_graph] makes for one row of the node table and
    for one row of the edge table. *)
Definition node_event (row : gmap string value) : Event :=
  EvAddNode (pd.cell ColumnNames.ID row) (pd.cell ColumnNames.TYPE row).

Definition link_event (row : gmap string value) : Event :=
  EvAddLink (pd.cell ColumnNames.SOURCE row) (pd.cell ColumnNames.TARGET row)
            (pd.cell ColumnNames.RELATIONSHIP_TYPE row).

(** The cells of one column over all the rows of the given tables. *)
Definition column_cells (c : string) (dfs : list DataFrame) : list value :=
  map (pd.cell c) (concat (map rows dfs)).

(** A table has a node when one of its rows names it, with its kind, as
    the source or as the target of an edge. *)
Definition has_node (df : DataFrame) (id kind : value) : Prop :=
  ∃ r, r ∈ rows df
       ∧ (pd.cell ColumnNames.SOURCE r = id ∧ pd.cell ColumnNames.SOURCE_TYPE r = kind
          ∨ pd.cell ColumnNames.TARGET r = id ∧ pd.cell ColumnNames.TARGET_TYPE r = kind).

(** Integer payloads, the only ones [sum] accepts. *)
Definition is_int (j : json) : bool :=
  match j with JInt _ => true | _ => false end.

(** The allowlist of a kind, and the labels its properties flatten to:
    the property itself or a dotted path below it. *)
Definition allowlist (t : VTEntityType) : list string :=
  default [] (assoc t _BASIC_PROPERTIES_PER_TYPE).

Definition below (key label : string) : Prop :=
  label = key ∨ ∃ rest, label = key +:+ "." +:+ rest.

Definition allowed_label (t : VTEntityType) (label : string) : Prop :=
  ∃ key, key ∈ allowlist t ∧ below key label.

(** The row of a related object in the result of
    [lookup_ioc_relationships]: the three source columns are set, then
    [id] and [type] are renamed to [target] and [target_type]. *)
Definition edge_row (observable : value) (t : VTEntityType) (relationship : string)
           (row : gmap string value) : gmap string value :=
  kmap (pd.rename_label [(ColumnNames.ID, ColumnNames.TARGET);
                         (ColumnNames.TYPE, ColumnNames.TARGET_TYPE)])
       (<[ColumnNames.RELATIONSHIP_TYPE := VStr relationship]>
          (<[ColumnNames.SOURCE_TYPE := VStr (VTEntityType_value t)]>
             (<[ColumnNames.SOURCE := observable]> row))).

(** What the paging request yields once every object is parsed. *)
Definition parsed_listing
           (api_iterator : VTLookupV3 → string → Z → json → outcome (list VTObject))
           (self : VTLookupV3) (path : string) (limit : json)
  : outcome (list DataFrame) :=
  let? objects := api_iterator self path 40 limit in
  omapM _parse_vt_object objects.

(** The paths of the object fetches of a trace, and the closes. *)
Definition fetched_paths (evs : list Event) : list string :=
  flat_map (fun ev => match ev with EvGetObject _ path => [path] | _ => [] end) evs.

Definition closes (evs : list Event) : nat :=
  length (flat_map (fun ev => match ev with EvClose => [ev] | _ => [] end) evs).

(** The fetch an item of a batch asks for: one when its kind is
    supported, none otherwise. *)
Definition item_paths (item : value * value) : list string :=
  match VTEntityType_call (inl item.2) with
  | Return t => [object_path t item.1]
  | Raise _ => []
  end.

(** The items of a batch: the cells of the two columns, row by row. *)
Definition items_of (df : DataFrame) (observable_column observable_type_column : string)
  : list (value * value) :=
  zip (map (pd.cell observable_column) (rows df))
      (map (pd.cell observable_type_column) (rows df)).

(** The rows an item contributes to a batch of relationship lookups:
    those of the frame its lookup returned, or its stub. *)
Definition edge_rows (item : value * value) (result : outcome DataFrame)
  : list (gmap string value) :=
  match result with
  | Return df => rows df
  | Raise _ => [stub_row item]
  end.

(** The edges handed to [graph.add_link], in call order. *)
Definition links (evs : list Event) : list (value * value * value) :=
  flat_map (fun ev => match ev with
                      | EvAddLink source target relationship =>
                          [(source, target, relationship)]
                      | _ => []
                      end) evs.

(** The edge a row of an edge table stands for. *)
Definition edge_of (row : gmap string value) : value * value * value :=
  (pd.cell ColumnNames.SOURCE row, pd.cell ColumnNames.TARGET row,
   pd.cell ColumnNames.RELATIONSHIP_TYPE row).

(** The calls that only go to the graph being built. *)
Definition builds_graph (ev : Event) : Prop :=
  match ev with
  | EvGraph _ _ _ | EvAddNode _ _ | EvAddLink _ _ _ => True
  | _ => False
  end.

(** ** Kinds and endpoints *)

Lemma all_members_supported (t : VTEntityType) : t ∈ supported_vt_types.
Proof.
  unfold supported_vt_types, _SUPPORTED_VT_TYPES.
  destruct t; repeat first [ apply list_elem_of_here | apply list_elem_of_further ].
Qed.

Lemma supported_true (t : VTEntityType) : supported t = true.
Proof. destruct t; reflexivity. Qed.

Lemma _get_endpoint_name_member (t : VTEntityType) :
  _get_endpoint_name (inr t) = Return (endpoint t).
Proof. destruct t; reflexivity. Qed.

Lemma _get_endpoint_name_value (v : value) (t : VTEntityType) :
  VTEntityType_call (inl v) = Return t →
  _get_endpoint_name (inl v) = Return (endpoint t).
Proof.
  intros H. unfold _get_endpoint_name. rewrite H, supported_true.
  destruct t; reflexivity.
Qed.

(** The guard [if VTEntityType(vt_type) not in ...: raise KeyError] can
    never fire: the conversion to the enumeration fails first. *)
Lemma VTEntityType_call_outside (v : value) :
  (∀ t, v ≠ VStr (VTEntityType_value t)) →
  VTEntityType_call (inl v) = Raise (ValueError (py_repr v +:+ " is not a valid VTEntityType")).
Proof.
  intros H. destruct v as [|z|s]; try reflexivity.
  unfold VTEntityType_call, VTEntityType_of_string. simpl.
  repeat (case_bool_decide as E;
          [ exfalso; subst s;
            first [ by apply (H FILE) | by apply (H DOMAIN)
                  | by apply (H IP_ADDRESS) | by apply (H URL) ]
          | clear E ]).
  reflexivity.
Qed.

Lemma VTEntityType_call_inside (v : value) (t : VTEntityType) :
  VTEntityType_call (inl v) = Return t → v = VStr (VTEntityType_value t).
Proof.
  destruct v as [|z|s]; try discriminate.
  unfold VTEntityType_call, VTEntityType_of_string. simpl.
  repeat (case_bool_decide as E; [ intros [= <-]; subst; reflexivity | clear E ]).
  discriminate.
Qed.

Section MethodFacts.

Variable api_get_object : VTLookupV3 → string → outcome VTObject.
Variable api_iterator : VTLookupV3 → string → Z → json → outcome (list VTObject).

(** A lookup that passes the kind check: one fetch, then the close. *)
Lemma lookup_ioc_fetch observable vt_type t self :
  VTEntityType_call (inl vt_type) = Return t →
  lookup_ioc api_get_object observable vt_type self =
    (match api_get_object self (object_path t observable) with
     | Return response =>
         match _parse_vt_object response with
         | Return df => Return df
         | Raise _ => Raise lookup_failed
         end
     | Raise _ => Raise lookup_failed
     end,
     after_fetch self (object_path t observable)).
Proof.
  intros H. unfold lookup_ioc, bind, lift. rewrite H.
  rewrite bool_decide_eq_false_2 by (intros Hn; apply Hn, all_members_supported).
  rewrite _get_endpoint_name_member.
  unfold try_finally, try_except, bind, get_object, lift, raise, close, after_fetch,
    object_path; simpl.
  destruct (api_get_object self _) as [response|e]; simpl.
  - destruct (_parse_vt_object response); simpl; rewrite <- app_assoc; reflexivity.
  - rewrite <- app_assoc; reflexivity.
Qed.

(** A lookup that fails the kind check leaves the client as it was. *)
Lemma lookup_ioc_rejected observable vt_type e self :
  VTEntityType_call (inl vt_type) = Raise e →
  lookup_ioc api_get_object observable vt_type self = (Raise e, self).
Proof. intros H. unfold lookup_ioc, bind, lift. rewrite H. reflexivity. Qed.

Lemma lookup_ioc_relationships_rejected observable vt_type relationship limit e self :
  VTEntityType_call (inl vt_type) = Raise e →
  lookup_ioc_relationships api_get_object api_iterator
    observable vt_type relationship limit self = (Raise e, self).
Proof.
  intros H. unfold lookup_ioc_relationships, bind, lift. rewrite H. reflexivity.
Qed.

(** With a supported kind and [limit = 0] nothing happens at all. *)
Lemma limit_zero_returns observable vt_type t relationship self :
  VTEntityType_call (inl vt_type) = Return t →
  lookup_ioc_relationships api_get_object api_iterator
    observable vt_type relationship (JInt 0) self
  = (Return pd.DataFrame_, self).
Proof.
  intros H. unfold lookup_ioc_relationships, bind, lift.
  rewrite H.
  rewrite bool_decide_eq_false_2 by (intros Hn; apply Hn, all_members_supported).
  rewrite (_get_endpoint_name_value _ _ H). reflexivity.
Qed.

End MethodFacts.

(** ** Kind validation, missing columns and the zero limit *)

Section Guards.

Variable api_get_object : VTLookupV3 → string → outcome VTObject.
Variable api_iterator : VTLookupV3 → string → Z → json → outcome (list VTObject).

(** C4. A kind outside [{file, domain, ip_address, url}] stops
    [_get_endpoint_name], [lookup_ioc] and [lookup_ioc_relationships]
    before any call leaves the module: each fails with the error by
    which the enumeration constructor rejects the value, the
    [ValueError] whose message is [repr(kind)] followed by
    [is not a valid VTEntityType], and the client comes back unchanged
    (no request, no close, no message). *)
Theorem unknown_kind_raises_ValueError observable vt_type relationship limit self :
  (∀ t, vt_type ≠ VStr (VTEntityType_value t)) →
  let e := ValueError (py_repr vt_type +:+ " is not a valid VTEntityType") in
  _get_endpoint_name (inl vt_type) = Raise e
  ∧ lookup_ioc api_get_object observable vt_type self = (Raise e, self)
  ∧ lookup_ioc_relationships api_get_object api_iterator
      observable vt_type relationship limit self = (Raise e, self).
Proof.
  intros H e. apply VTEntityType_call_outside in H. repeat split.
  - unfold _get_endpoint_name. by rewrite H.
  - by apply lookup_ioc_rejected.
  - by apply lookup_ioc_relationships_rejected.
Qed.

(** C8. A table that, once its index is reset, lacks the value column or
    the kind column makes [lookup_iocs] raise [KeyError] with the client
    untouched: no lookup was made. *)
Theorem lookup_iocs_missing_column observables_df _observables_df
        observable_column observable_type_column self :
  pd.reset_index observables_df = Return _observables_df →
  observable_column ∉ columns _observables_df
  ∨ observable_type_column ∉ columns _observables_df →
  ∃ column,
    (column = observable_column ∨ column = observable_type_column)
    ∧ lookup_iocs api_get_object
        observables_df observable_column observable_type_column self
      = (Raise (KeyError ("Column " +:+ column +:+ " not found in observables_df")), self).
Proof.
  intros Hreset Hmissing.
  unfold lookup_iocs, bind, lift. rewrite Hreset.
  unfold check_columns. simpl. unfold bind.
  destruct (decide (observable_column ∈ columns _observables_df)) as [Hin|Hout].
  - destruct Hmissing as [?|Hty]; [done|].
    exists observable_type_column. split; [by right|].
    rewrite (bool_decide_eq_false_2 (observable_column ∉ _)) by (intros Hn; by apply Hn).
    unfold ret at 1. rewrite bool_decide_eq_true_2 by done. reflexivity.
  - exists observable_column. split; [by left|].
    rewrite bool_decide_eq_true_2 by done. reflexivity.
Qed.

(** C9. With a supported kind and [limit = 0], [lookup_ioc_relationships]
    returns the empty frame and the client is unchanged: neither a paging
    request nor any other call was issued. *)
Theorem lookup_ioc_relationships_limit_zero observable vt_type t relationship self :
  VTEntityType_call (inl vt_type) = Return t →
  lookup_ioc_relationships api_get_object api_iterator
    observable vt_type relationship (JInt 0) self
  = (Return pd.DataFrame_, self).
Proof.
  intros Hkind. unfold lookup_ioc_relationships, bind, lift. rewrite Hkind.
  rewrite bool_decide_eq_false_2 by (intros Hn; apply Hn, all_members_supported).
  rewrite (_get_endpoint_name_value _ _ Hkind).
  unfold resolve_limit, ret. reflexivity.
Qed.

(** C7. With a supported kind and no limit, when the metadata fetch fails
    or its answer does not list the relationship, the result is the empty
    frame (no exception) and no paging request is made. *)
Theorem lookup_ioc_relationships_no_metadata observable vt_type t relationship self :
  VTEntityType_call (inl vt_type) = Return t →
  (∃ e, api_get_object self (counters_path t observable) = Raise e)
  ∨ (∃ response,
       api_get_object self (counters_path t observable) = Return response
       ∧ ∀ rels, obj_relationships response = Some rels →
                 dict_get relationship rels = None) →
  ∃ evs,
    lookup_ioc_relationships api_get_object api_iterator
      observable vt_type relationship JNull self
    = (Return pd.DataFrame_, extend self evs)
    ∧ filter is_paging evs = [].
Proof.
  intros H Hmeta.
  unfold lookup_ioc_relationships, extend, bind, lift.
  rewrite H.
  rewrite bool_decide_eq_false_2 by (intros Hn; apply Hn, all_members_supported).
  rewrite (_get_endpoint_name_value _ _ H).
  unfold resolve_limit, bind, lift. rewrite H, _get_endpoint_name_member.
  unfold try_except, bind, get_object, lift. fold (counters_path t observable).
  destruct Hmeta as [[e He]|(response & Hr & Habsent)].
  - rewrite He. simpl.
    eexists [_; _]. rewrite <- app_assoc. split; reflexivity.
  - rewrite Hr. unfold relationships.
    destruct (obj_relationships response) as [rels|] eqn:Hrels; simpl.
    + rewrite (Habsent rels eq_refl). simpl.
      eexists [_]. split; reflexivity.
    + eexists [_; _]. rewrite <- app_assoc. split; reflexivity.
Qed.

(** C10. An object that carries attributes without [last_analysis_stats]
    makes [_parse_vt_object] raise; [lookup_ioc], whose fetch succeeded,
    then fails with the generic exception and returns no frame at all. *)
Theorem missing_stats_fails_lookup vt_object attributes :
  obj_attributes vt_object = Some attributes →
  dict_get VTObjectPorperties.LAST_ANALYSIS_STATS attributes = None →
  (∃ e, _parse_vt_object vt_object = Raise e)
  ∧ ∀ observable vt_type t self,
      VTEntityType_call (inl vt_type) = Return t →
      api_get_object self (object_path t observable) = Return vt_object →
      fst (lookup_ioc api_get_object observable vt_type self)
      = Raise (Exception "It was not possible to get the data").
Proof.
  intros Hattr Hstats.
  assert (Hparse : ∃ e, _parse_vt_object vt_object = Raise e).
  { unfold _parse_vt_object, to_dict. rewrite Hattr.
    change (dict_get VTObjectPorperties.ATTRIBUTES _) with (Some (JDict attributes)).
    cbv beta iota.
    destruct (VTEntityType_call (inl (VStr (obj_type vt_object)))) as [ty|e];
      [|by eexists].
    unfold obind at 2. rewrite supported_true. unfold negb, obind at 2, obind at 2.
    unfold py_getitem at 1. rewrite Hstats. by eexists. }
  split; [exact Hparse|].
  intros observable vt_type t self Hkind Hfetch.
  rewrite (lookup_ioc_fetch _ _ _ _ _ Hkind), Hfetch. simpl.
  destruct Hparse as [e ->]. reflexivity.
Qed.

(** C6. The lookup example: kind [file], value ["abc123"], a backend that
    answers with the attributes [type_description = "PE32"],
    [size = 1024], [last_analysis_stats = {malicious: 3, harmless: 60}].
    The result is one row keyed ["abc123"] with [detections = 3] and
    [scans = 63]. *)
Theorem lookup_abc123 response self :
  obj_id response = "abc123" →
  obj_type response = "file" →
  obj_attributes response =
    Some [("type_description", JStr "PE32"); ("size", JInt 1024);
          ("last_analysis_stats", JDict [("malicious", JInt 3); ("harmless", JInt 60)])] →
  api_get_object self "/files/abc123" = Return response →
  ∃ df row,
    fst (lookup_ioc api_get_object (VStr "abc123") (VStr "file") self) = Return df
    ∧ index df = [ColumnNames.ID]
    ∧ rows df = [row]
    ∧ row !! ColumnNames.ID = Some (VStr "abc123")
    ∧ row !! ColumnNames.DETECTIONS = Some (VInt 3)
    ∧ row !! ColumnNames.SCANS = Some (VInt 63).
Proof.
  intros Hid Hty Hattr Hfetch.
  rewrite (lookup_ioc_fetch _ _ _ FILE) by reflexivity.
  change (object_path FILE (VStr "abc123")) with "/files/abc123".
  rewrite Hfetch. simpl.
  destruct response as [i ty attrs rels]. simpl in *. subst.
  eexists _, _. split; [vm_compute; reflexivity|].
  repeat split; vm_compute; reflexivity.
Qed.

End Guards.

(** ** Batch lookup *)

Lemma obind_Return {A B} (o : outcome A) (k : A → outcome B) (b : B) :
  obind o k = Return b → ∃ a, o = Return a ∧ k a = Return b.
Proof. destruct o as [a|e]; simpl; [eauto | discriminate]. Qed.

Lemma setitem_list_one_row c v df df' :
  pd.setitem_list c [v] df = Return df' → length (rows df') = 1%nat.
Proof.
  unfold pd.setitem_list. case_bool_decide as Hlen.
  - intros [= <-]. simpl in *.
    destruct (rows df) as [|r [|]]; simpl in *; congruence.
  - destruct (rows df), (columns df); try discriminate.
    intros [= <-]. reflexivity.
Qed.

Lemma set_index_rows keys df df' :
  pd.set_index keys df = Return df' → length (rows df') = length (rows df).
Proof.
  unfold pd.set_index. destruct (filter _ keys); [|discriminate].
  intros [= <-]. simpl. by rewrite length_map.
Qed.

(** Whatever the object, a parsed record is a frame of exactly one row. *)
Lemma _parse_vt_object_one_row vt_object df :
  _parse_vt_object vt_object = Return df → ∃ row, rows df = [row].
Proof.
  unfold _parse_vt_object. intros H.
  apply obind_Return in H as (df0 & _ & H).
  apply obind_Return in H as (df1 & _ & H).
  apply obind_Return in H as (df2 & H2 & H).
  apply setitem_list_one_row in H2. apply set_index_rows in H.
  rewrite H2 in H. destruct (rows df) as [|row [|]]; try discriminate. by exists row.
Qed.

Lemma stub_frame observable observable_type :
  stub observable observable_type
  = Return {| index := [ColumnNames.ID]; columns := [ColumnNames.TYPE];
              rows := [stub_row (observable, observable_type)] |}.
Proof. reflexivity. Qed.

Lemma filter_non_empty_columns (objs : list DataFrame) (acc : list string) :
  foldl (fun acc df => foldl (fun acc c => pd.add_column c acc) acc (columns df))
        acc (List.filter pd.non_empty objs)
  = foldl (fun acc df => foldl (fun acc c => pd.add_column c acc) acc (columns df))
          acc objs.
Proof.
  revert acc. induction objs as [|obj objs IH]; intros acc; [done|]. simpl.
  unfold pd.non_empty at 1. case_bool_decide as Hempty; simpl.
  - destruct Hempty as [_ ->]. simpl. apply IH.
  - apply IH.
Qed.

Lemma filter_non_empty_rows (objs : list DataFrame) :
  concat (map rows (List.filter pd.non_empty objs)) = concat (map rows objs).
Proof.
  induction objs as [|obj objs IH]; [done|]. simpl.
  unfold pd.non_empty at 1. case_bool_decide as Hempty; simpl.
  - destruct Hempty as [-> _]. simpl. apply IH.
  - by rewrite IH.
Qed.

Lemma kept_columns (objs : list DataFrame) :
  pd.concat_columns (pd.kept objs) = pd.concat_columns objs.
Proof.
  unfold pd.kept. destruct (List.filter pd.non_empty objs) eqn:Hfilter; [done|].
  rewrite <- Hfilter. apply filter_non_empty_columns.
Qed.

Lemma kept_rows (objs : list DataFrame) :
  concat (map rows (pd.kept objs)) = concat (map rows objs).
Proof.
  unfold pd.kept. destruct (List.filter pd.non_empty objs) eqn:Hfilter; [done|].
  rewrite <- Hfilter. apply filter_non_empty_rows.
Qed.

Lemma kept_cons (obj : DataFrame) (objs : list DataFrame) : pd.kept (obj :: objs) ≠ [].
Proof.
  unfold pd.kept. by destruct (List.filter pd.non_empty (obj :: objs)) eqn:Hfilter.
Qed.

Lemma kept_Forall (P : DataFrame → Prop) (objs : list DataFrame) :
  Forall P objs → Forall P (pd.kept objs).
Proof.
  intros Hall. unfold pd.kept.
  destruct (List.filter pd.non_empty objs) eqn:Hfilter; [done|].
  rewrite <- Hfilter. apply Forall_forall. intros obj Hobj.
  rewrite Forall_forall in Hall. apply Hall.
  apply list_elem_of_In in Hobj. apply List.filter_In in Hobj as [Hobj _].
  by apply list_elem_of_In.
Qed.

(** With rows in every frame nothing is left out. *)
Lemma kept_all (objs : list DataFrame) :
  Forall (fun obj => rows obj ≠ []) objs → pd.kept objs = objs.
Proof.
  intros Hall. unfold pd.kept.
  assert (Hfilter : List.filter pd.non_empty objs = objs).
  { induction Hall as [|obj objs Hobj _ IH]; [done|]. simpl.
    unfold pd.non_empty at 1. rewrite bool_decide_eq_false_2 by (by intros [? _]).
    simpl. by rewrite IH. }
  rewrite Hfilter. by destruct objs.
Qed.

Lemma common_index_all (names : list string) (objs : list DataFrame) :
  objs ≠ [] → Forall (fun d => index d = names) objs → pd.common_index objs = names.
Proof.
  intros Hne Hall. destruct objs as [|df dfs]; [done|].
  apply Forall_cons in Hall as [Hdf Hdfs]. simpl.
  rewrite (proj2 (forallb_forall _ _)); [done|].
  intros d Hd. apply bool_decide_eq_true_2. rewrite Hdf.
  rewrite Forall_forall in Hdfs. apply Hdfs. by apply list_elem_of_In.
Qed.

Lemma concat_rows df dfs :
  pd.concat (df :: dfs)
  = Return {| index := pd.common_index (pd.kept (df :: dfs));
              columns := pd.concat_columns (df :: dfs);
              rows := concat (map rows (df :: dfs)) |}.
Proof.
  unfold pd.concat. rewrite <- (kept_columns (df :: dfs)), <- (kept_rows (df :: dfs)).
  pose proof (kept_cons df dfs) as Hne. by destruct (pd.kept (df :: dfs)).
Qed.

Lemma reset_index_rows df df' :
  pd.reset_index df = Return df' → length (rows df') = length (rows df).
Proof.
  unfold pd.reset_index. destruct (index df).
  - case_bool_decide; [discriminate|]. intros [= <-]. simpl. by rewrite length_imap.
  - destruct (filter _ _); [|discriminate]. by intros [= <-].
Qed.

Section Batch.

Variable api_get_object : VTLookupV3 → string → outcome VTObject.

Lemma lookup_ioc_one_row observable vt_type self df :
  fst (lookup_ioc api_get_object observable vt_type self) = Return df →
  ∃ row, rows df = [row].
Proof.
  destruct (VTEntityType_call (inl vt_type)) as [t|e] eqn:Hkind.
  - rewrite (lookup_ioc_fetch _ _ _ _ _ Hkind). simpl.
    destruct (api_get_object self _) as [response|]; [|discriminate].
    destruct (_parse_vt_object response) as [df'|] eqn:Hparse; [|discriminate].
    intros [= <-]. by eapply _parse_vt_object_one_row.
  - by rewrite (lookup_ioc_rejected _ _ _ _ _ Hkind).
Qed.

Lemma lookup_or_stub_row item self :
  ∃ df self' row,
    lookup_or_stub api_get_object item self = (Return df, self')
    ∧ rows df = [row]
    ∧ contributes (item, fst (lookup_ioc api_get_object item.1 item.2 self)) row.
Proof.
  destruct item as [observable observable_type]. unfold lookup_or_stub, try_except.
  unfold contributes. simpl.
  destruct (lookup_ioc api_get_object observable observable_type self)
    as [[df|e] self1] eqn:Hcall.
  - destruct (lookup_ioc_one_row observable observable_type self df) as [row Hrow].
    { by rewrite Hcall. }
    by exists df, self1, row.
  - unfold bind, print, emit, lift. rewrite stub_frame. by eexists _, _, _.
Qed.

Lemma lookup_or_stub_all items : ∀ self,
  ∃ dfs self' results,
    mapM (lookup_or_stub api_get_object) items self = (Return dfs, self')
    ∧ length dfs = length items
    ∧ Forall2 (outcome_of api_get_object) items results
    ∧ Forall2 contributes (zip items results) (concat (map rows dfs)).
Proof.
  induction items as [|item items IH]; intros self.
  - exists [], self, []. repeat split; constructor.
  - destruct (lookup_or_stub_row item self) as (df & self1 & row & Hstep & Hrow & Hc).
    destruct (IH self1) as (dfs & self' & results & Hrest & Hlen & Hout & Hrows).
    exists (df :: dfs), self', (fst (lookup_ioc api_get_object item.1 item.2 self) :: results).
    simpl. unfold bind. rewrite Hstep, Hrest. simpl. rewrite Hrow, Hlen.
    repeat split.
    + constructor; [by exists self | done].
    + simpl. by constructor.
Qed.

(** C5. On a table that carries both columns, [lookup_iocs] returns (it
    does not raise) a frame with one row per input row, in input order:
    the row of a lookup that returned is its record, the row of a lookup
    that raised is the stub made of the identifier and the kind.  With N
    input rows and M failed lookups that is N rows, N - M records and M
    stubs. *)
Theorem lookup_iocs_row_per_item observables_df _observables_df
        observable_column observable_type_column self :
  pd.reset_index observables_df = Return _observables_df →
  observable_column ∈ columns _observables_df →
  observable_type_column ∈ columns _observables_df →
  let items := zip (map (pd.cell observable_column) (rows _observables_df))
                   (map (pd.cell observable_type_column) (rows _observables_df)) in
  ∃ df results,
    fst (lookup_iocs api_get_object
           observables_df observable_column observable_type_column self)
    = Return df
    ∧ length items = length (rows observables_df)
    ∧ length (rows df) = length (rows observables_df)
    ∧ Forall2 (outcome_of api_get_object) items results
    ∧ Forall2 contributes (zip items results) (rows df)
    ∧ (length (List.filter (fun r => negb (is_Return r)) results)
       + length (List.filter is_Return results) = length (rows observables_df))%nat.
Proof.
  intros Hreset Hvalue Hkind items.
  unfold lookup_iocs, bind, lift. rewrite Hreset.
  unfold check_columns. simpl. unfold bind.
  rewrite !bool_decide_eq_false_2 by (intros Hn; by apply Hn).
  fold items.
  assert (Hitems : length items = length (rows observables_df)).
  { unfold items. rewrite length_zip_with, !length_map, (reset_index_rows _ _ Hreset).
    apply Nat.min_id. }
  clearbody items. cbv beta iota delta [ret].
  destruct (lookup_or_stub_all items self)
    as (dfs & self' & results & Hrun & Hlen & Hout & Hrows).
  assert (Hresults : length results = length (rows observables_df)).
  { rewrite <- Hitems. symmetry. by eapply Forall2_length. }
  assert (Hcount : (length (List.filter (fun r => negb (is_Return r)) results)
                    + length (List.filter is_Return results) = length results)%nat).
  { clear. induction results as [|[?|?] results IH]; simpl; lia. }
  match goal with
  | |- context [mapM ?f items self] =>
      change (mapM f items self) with (mapM (lookup_or_stub api_get_object) items self)
  end.
  rewrite Hrun.
  apply Forall2_length in Hrows as Hn.
  rewrite length_zip_with, <- (Forall2_length _ _ _ Hout), Nat.min_id in Hn.
  destruct dfs as [|df dfs].
  - simpl in *. exists pd.DataFrame_, results. simpl.
    repeat split; try done; lia.
  - rewrite bool_decide_eq_true_2 by (simpl; lia). rewrite concat_rows.
    eexists _, results. simpl. repeat split; try done; simpl in *; lia.
Qed.

End Batch.

(** ** The transport connection *)

Lemma pure_ret {A} (a : A) : pure (ret a).
Proof. by intros self. Qed.

Lemma pure_raise {A} (e : exn) : pure (@raise A e).
Proof. by intros self. Qed.

Lemma pure_lift {A} (o : outcome A) : pure (lift o).
Proof. by intros self. Qed.

Lemma pure_bind {A B} (m : M A) (k : A → M B) :
  pure m → (∀ a, pure (k a)) → pure (bind m k).
Proof.
  intros Hm Hk self. unfold bind. specialize (Hm self).
  destruct (m self) as [[a|e] self1]; simpl in *; subst; [apply Hk | done].
Qed.

Lemma snd_bind_pure {A B} (m : M A) (k : A → M B) self :
  (∀ a, pure (k a)) → (bind m k self).2 = (m self).2.
Proof.
  intros Hk. unfold bind. destruct (m self) as [[a|e] self1]; simpl; [apply Hk | done].
Qed.

Lemma snd_try_except_pure {A} (body handler : M A) self :
  pure handler → (try_except body handler self).2 = (body self).2.
Proof.
  intros Hh. unfold try_except.
  destruct (body self) as [[a|e] self1]; simpl; [done | apply Hh].
Qed.

Lemma snd_try_finally_close {A} (body : M A) self :
  (try_finally body close self).2 = (close (body self).2).2.
Proof. unfold try_finally, close. by destruct (body self) as [r self1]. Qed.

Create HintDb pure.
#[local] Hint Resolve pure_ret pure_raise pure_lift : pure.

Lemma extend_nil self : extend self [] = self.
Proof. destruct self. unfold extend. simpl. by rewrite app_nil_r. Qed.

Lemma since_extend self evs : since self (extend self evs) = evs.
Proof. unfold since, extend. simpl. by rewrite drop_app_length. Qed.

Lemma requests_app evs1 evs2 : requests (evs1 ++ evs2) = requests evs1 ++ requests evs2.
Proof. unfold requests. by rewrite flat_map_app. Qed.

Section Connection.

Variable api_get_object : VTLookupV3 → string → outcome VTObject.
Variable api_iterator : VTLookupV3 → string → Z → json → outcome (list VTObject).

(** What one lookup does to the client: nothing (the kind was rejected),
    or one fetch followed by the close. *)
Lemma lookup_ioc_state observable vt_type self :
  match VTEntityType_call (inl vt_type) with
  | Return t =>
      (lookup_ioc api_get_object observable vt_type self).2
      = after_fetch self (object_path t observable)
  | Raise e => lookup_ioc api_get_object observable vt_type self = (Raise e, self)
  end.
Proof.
  destruct (VTEntityType_call (inl vt_type)) as [t|e] eqn:Hkind.
  - by rewrite (lookup_ioc_fetch _ _ _ _ _ Hkind).
  - by apply lookup_ioc_rejected.
Qed.

(** One round of the batch loop: no request and the connection as it
    was, or one request and the connection closed. *)
Lemma lookup_or_stub_state item self :
  let self' := (lookup_or_stub api_get_object item self).2 in
  ∃ evs,
    trace self' = trace self ++ evs
    ∧ (requests evs = [] ∧ closed self' = closed self
       ∨ requests evs = [closed self] ∧ closed self' = true).
Proof.
  cbv zeta. destruct item as [observable observable_type].
  unfold lookup_or_stub, try_except.
  pose proof (lookup_ioc_state observable observable_type self) as Hstate.
  destruct (VTEntityType_call (inl observable_type)) as [t|e].
  - destruct (lookup_ioc api_get_object observable observable_type self)
      as [[df|e] self1]; simpl in Hstate; subst self1; simpl.
    + eexists [_; _]. split; [reflexivity|]. by right.
    + rewrite <- app_assoc. eexists [_; _; _]. split; [reflexivity|]. by right.
  - rewrite Hstate. simpl. eexists [_]. split; [reflexivity|]. by left.
Qed.

Lemma lookup_or_stub_all_state items : ∀ self,
  let self' := (mapM (lookup_or_stub api_get_object) items self).2 in
  ∃ evs,
    trace self' = trace self ++ evs
    ∧ (requests evs = [] ∧ closed self' = closed self
       ∨ (∃ n, requests evs = closed self :: replicate n true) ∧ closed self' = true).
Proof.
  cbv zeta. induction items as [|item items IH]; intros self.
  - exists []. simpl. rewrite app_nil_r. split; [done|]. by left.
  - destruct (lookup_or_stub_state item self) as (evs1 & Htrace1 & Hreq1).
    destruct (lookup_or_stub_row api_get_object item self)
      as (df & self1 & row & Hstep & _).
    rewrite Hstep in Htrace1, Hreq1. simpl in Htrace1, Hreq1.
    destruct (IH self1) as (evs2 & Htrace2 & Hreq2).
    assert (Hcons : (mapM (lookup_or_stub api_get_object) (item :: items) self).2
                    = (mapM (lookup_or_stub api_get_object) items self1).2).
    { cbn [mapM]. unfold bind at 1. rewrite Hstep.
      by rewrite snd_bind_pure by auto with pure. }
    rewrite !Hcons. clear Hcons.
    exists (evs1 ++ evs2). rewrite Htrace2, Htrace1, app_assoc, requests_app.
    split; [done|].
    destruct Hreq1 as [[-> Hc1]|[-> Hc1]], Hreq2 as [[-> Hc2]|[[n ->] Hc2]];
      rewrite ?Hc1 in *; simpl.
    + by left.
    + right. eauto.
    + right. split; [by exists 0%nat | congruence].
    + right. split; [by exists (S n) | done].
Qed.

(** The state after [lookup_iocs]: that of its loop, when it gets there. *)
Lemma lookup_iocs_state observables_df observable_column observable_type_column self :
  let self' := (lookup_iocs api_get_object
                  observables_df observable_column observable_type_column self).2 in
  self' = self ∨ ∃ items, self' = (mapM (lookup_or_stub api_get_object) items self).2.
Proof.
  unfold lookup_iocs, check_columns. cbn [mapM].
  unfold bind, lift, ret, raise.
  destruct (pd.reset_index observables_df) as [_observables_df|e]; [|by left].
  do 2 (case_bool_decide; [by left|]).
  right.
  match goal with
  | |- context [mapM ?f ?items self] =>
      exists items;
      change (mapM f items self) with (mapM (lookup_or_stub api_get_object) items self);
      generalize (mapM (lookup_or_stub api_get_object) items self)
  end.
  intros [[dfs|e] self1]; [|done].
  by case_bool_decide.
Qed.

(** The paging block ends with the paging request and the close,
    whatever the listing or the parsing of its objects does. *)
Lemma page_relationships_state observable vt_type relationship endpoint_name limit self :
  (page_relationships api_iterator observable vt_type relationship endpoint_name limit self).2
  = after_paging self []
      (EvIterator (closed self)
                  (relationships_path endpoint_name observable relationship) 40 limit).
Proof.
  unfold page_relationships.
  rewrite snd_try_finally_close, snd_try_except_pure by auto with pure.
  rewrite snd_bind_pure;
    [unfold close, iterator, after_paging, relationships_path; simpl;
     by rewrite <- app_assoc|].
  intros response.
  repeat first [ apply pure_bind | intros ? | case_bool_decide | by auto with pure ].
Qed.

(** The metadata block issues no paging request and leaves the
    connection as it was. *)
Lemma resolve_limit_state observable vt_type relationship endpoint_name limit self :
  ∃ evs,
    (resolve_limit api_get_object observable vt_type relationship endpoint_name limit self).2
    = extend self evs
    ∧ filter is_paging evs = [].
Proof.
  unfold resolve_limit.
  destruct limit; try (exists []; by rewrite extend_nil).
  unfold bind at 1, lift at 1.
  destruct (VTEntityType_call (inl vt_type)) as [t|e];
    [|exists []; by rewrite extend_nil].
  rewrite _get_endpoint_name_member. unfold bind at 1, lift at 1.
  unfold try_except, bind, get_object, lift, relationships, print, emit, ret, extend.
  destruct (api_get_object self _) as [response|e]; simpl.
  - destruct (obj_relationships response) as [rels|]; simpl.
    + case_bool_decide; simpl.
      * destruct (obind _ _); simpl.
        -- by eexists [_].
        -- rewrite <- app_assoc. by eexists [_; _].
      * by eexists [_].
    + rewrite <- app_assoc. by eexists [_; _].
  - rewrite <- app_assoc. by eexists [_; _].
Qed.

(** What [lookup_ioc_relationships] does to the client: some events
    without a paging request and the connection as it was, or such
    events followed by one paging request and the close. *)
Lemma lookup_ioc_relationships_state observable vt_type relationship limit self :
  let self' := (lookup_ioc_relationships api_get_object api_iterator
                  observable vt_type relationship limit self).2 in
  ∃ evs,
    filter is_paging evs = []
    ∧ (self' = extend self evs
       ∨ ∃ c path l, self' = after_paging self evs (EvIterator c path 40 l)).
Proof.
  unfold lookup_ioc_relationships, bind, lift.
  destruct (VTEntityType_call (inl vt_type)) as [t|e] eqn:Hkind;
    [|exists []; split; [done|left; by rewrite extend_nil]].
  rewrite bool_decide_eq_false_2 by (intros Hn; apply Hn, all_members_supported).
  rewrite (_get_endpoint_name_value _ _ Hkind).
  destruct (resolve_limit_state observable vt_type relationship (endpoint t) limit self)
    as (evs & Hstate & Hevs).
  exists evs. split; [done|].
  destruct (resolve_limit _ _ _ _ _ _ self) as [[[df|[endpoint_name l]]|e] self1];
    simpl in Hstate; subst self1; cbn -[page_relationships extend]; try by left.
  destruct l as [|[|n|n]|str|d]; try (by left).
  all: right; rewrite page_relationships_state; unfold after_paging, extend; simpl;
    rewrite <- app_assoc; simpl; by eexists _, _, _.
Qed.

(** C2, as the code has it.  A call of [lookup_ioc] that passes the kind
    check ends with the connection closed, whether the fetch and the
    parsing succeed or not; a call rejected for its kind leaves the client
    as it was.  A closed connection stays closed through [lookup_ioc],
    [lookup_ioc_relationships] and [lookup_iocs].  In [lookup_iocs] every
    request after the first one is issued on a closed connection. *)
Theorem lookup_ioc_closes_after_fetch :
  (∀ observable vt_type t self,
     VTEntityType_call (inl vt_type) = Return t →
     closed (lookup_ioc api_get_object observable vt_type self).2 = true)
  ∧ (∀ observable vt_type e self,
       VTEntityType_call (inl vt_type) = Raise e →
       (lookup_ioc api_get_object observable vt_type self).2 = self)
  ∧ (∀ observable vt_type relationship limit self,
       closed self = true →
       closed (lookup_ioc api_get_object observable vt_type self).2 = true
       ∧ closed (lookup_ioc_relationships api_get_object api_iterator
                   observable vt_type relationship limit self).2
         = true)
  ∧ (∀ observables_df observable_column observable_type_column self,
       let self' :=
         (lookup_iocs api_get_object
            observables_df observable_column observable_type_column self).2 in
       (closed self = true → closed self' = true)
       ∧ Forall (fun c => c = true) (tail (requests (since self self')))).
Proof.
  split; [|split; [|split]].
  - intros observable vt_type t self Hkind.
    by rewrite (lookup_ioc_fetch _ _ _ _ _ Hkind).
  - intros observable vt_type e self Hkind.
    by rewrite (lookup_ioc_rejected _ _ _ _ _ Hkind).
  - intros observable vt_type relationship limit self Hclosed. split.
    + pose proof (lookup_ioc_state observable vt_type self) as Hstate.
      destruct (VTEntityType_call (inl vt_type)); by rewrite Hstate.
    + destruct (lookup_ioc_relationships_state observable vt_type relationship limit self)
        as (evs & _ & [->|(c & path & l & ->)]); done.
  - intros observables_df observable_column observable_type_column self self'.
    destruct (lookup_iocs_state observables_df observable_column
                                observable_type_column self) as [Hsame|[items Hloop]];
      fold self' in Hsame || fold self' in Hloop.
    + rewrite Hsame. split; [done|].
      unfold since. rewrite drop_all. constructor.
    + destruct (lookup_or_stub_all_state items self) as (evs & Htrace & Hreq).
      rewrite <- Hloop in Htrace, Hreq.
      unfold since. rewrite Htrace, drop_app_length.
      destruct Hreq as [[-> Hc]|[[n ->] Hc]]; simpl.
      * split; [congruence | constructor].
      * split; [done|]. by apply Forall_replicate.
Qed.

(** C3, as the code has it.  Once [lookup_ioc_relationships] has issued
    its paging request it closes the connection before it returns or
    raises.  A call rejected for its kind, or called with [limit = 0],
    makes no call at all and leaves the client, connection included, as
    it was. *)
Theorem lookup_ioc_relationships_closes_after_paging
        observable vt_type relationship limit self :
  let self' := (lookup_ioc_relationships api_get_object api_iterator
                  observable vt_type relationship limit self).2 in
  (∀ ev, ev ∈ since self self' → is_paging ev = true →
         closed self' = true ∧ last (trace self') = Some EvClose)
  ∧ ((∃ e, VTEntityType_call (inl vt_type) = Raise e) ∨ limit = JInt 0 → self' = self).
Proof.
  intros self'. split.
  - destruct (lookup_ioc_relationships_state observable vt_type relationship limit self)
      as (evs & Hevs & [Hstate|(c & path & l & Hstate)]);
      fold self' in Hstate; rewrite Hstate; intros ev Hin Hpaging.
    + rewrite since_extend in Hin.
      assert (ev ∈ filter is_paging evs) as Hf
          by (apply list_elem_of_filter; split; [by rewrite Hpaging | done]).
      rewrite Hevs in Hf. by apply elem_of_nil in Hf.
    + split; [done|]. unfold after_paging. simpl.
      change [EvIterator c path 40 l; EvClose] with ([EvIterator c path 40 l] ++ [EvClose]).
      rewrite !app_assoc. apply last_snoc.
  - intros [[e Hkind]| ->]; unfold self'.
    + by erewrite lookup_ioc_relationships_rejected by eassumption.
    + destruct (VTEntityType_call (inl vt_type)) as [t|e] eqn:Hkind.
      * by erewrite limit_zero_returns by eassumption.
      * by erewrite lookup_ioc_relationships_rejected by eassumption.
Qed.

End Connection.

(** ** Graph assembly *)

Lemma bind_Return {A B} (m : M A) (k : A → M B) self b self' :
  bind m k self = (Return b, self') →
  ∃ a self1, m self = (Return a, self1) ∧ k a self1 = (Return b, self').
Proof.
  unfold bind. destruct (m self) as [[a|e] self1]; [eauto | discriminate].
Qed.

Lemma extend_extend self evs1 evs2 :
  extend (extend self evs1) evs2 = extend self (evs1 ++ evs2).
Proof. unfold extend. simpl. by rewrite app_assoc. Qed.

Lemma node_ids_app evs1 evs2 : node_ids (evs1 ++ evs2) = node_ids evs1 ++ node_ids evs2.
Proof. unfold node_ids. by rewrite flat_map_app. Qed.

Lemma node_ids_nodes rs : node_ids (map node_event rs) = map (pd.cell ColumnNames.ID) rs.
Proof. induction rs as [|r rs IH]; simpl; [done | by rewrite <- IH]. Qed.

Lemma node_ids_links rs : node_ids (map link_event rs) = [].
Proof. by induction rs. Qed.

(** *** Groups *)

Lemma insert_sorted_perm kv l : pd.insert_sorted kv l ≡ₚ kv :: l.
Proof.
  induction l as [|kv' l IH]; simpl; [done|].
  destruct (pd.key_leb _ _); [done|]. rewrite IH. apply Permutation_swap.
Qed.

Lemma sort_groups_perm l : pd.sort_groups l ≡ₚ l.
Proof.
  unfold pd.sort_groups. induction l as [|kv l IH]; simpl; [done|].
  by rewrite insert_sorted_perm, IH.
Qed.

Lemma upsert_first_old k v groups :
  k ∈ map fst groups → map fst (pd.upsert_first k v groups) = map fst groups.
Proof.
  induction groups as [|[k' v'] groups IH]; simpl; intros Hin.
  - by apply elem_of_nil in Hin.
  - case_bool_decide as Hk; simpl; [done|].
    apply elem_of_cons in Hin as [?|Hin]; [done|]. by rewrite IH.
Qed.

Lemma upsert_first_new k v groups :
  k ∉ map fst groups → map fst (pd.upsert_first k v groups) = map fst groups ++ [k].
Proof.
  induction groups as [|[k' v'] groups IH]; simpl; intros Hout; [done|].
  apply not_elem_of_cons in Hout as [Hne Hout].
  rewrite bool_decide_eq_false_2 by done. simpl. by rewrite IH.
Qed.

Lemma upsert_first_keys k v groups :
  NoDup (map fst groups) →
  NoDup (map fst (pd.upsert_first k v groups))
  ∧ ∀ k', k' ∈ map fst (pd.upsert_first k v groups) ↔ k' ∈ map fst groups ∨ k' = k.
Proof.
  intros Hnd. destruct (decide (k ∈ map fst groups)) as [Hin|Hout].
  - rewrite upsert_first_old by done. split; [done|].
    intros k'. split; [by left | intros [? | ->]; done].
  - rewrite upsert_first_new by done. split.
    + apply NoDup_app. repeat split; [done| |apply NoDup_singleton].
      intros x Hx Hx'. apply list_elem_of_singleton in Hx'. by subst.
    + intros k'. rewrite elem_of_app, list_elem_of_singleton. done.
Qed.

Lemma group_step_keys key col groups r :
  NoDup (map fst groups) →
  NoDup (map fst (pd.group_step key col groups r))
  ∧ ∀ k, k ∈ map fst (pd.group_step key col groups r)
         ↔ k ∈ map fst groups ∨ (k ≠ VNone ∧ k = pd.cell key r).
Proof.
  intros Hnd. unfold pd.group_step. destruct (pd.cell key r) as [|z|s] eqn:Hcell.
  - split; [done|]. intros k. split; [by left | intros [? | [? ->]]; done].
  - destruct (upsert_first_keys (VInt z) (pd.cell col r) groups Hnd) as [? Hk].
    split; [done|]. intros k. rewrite Hk. split; intros [?|?]; auto.
    + right. by subst.
    + right. tauto.
  - destruct (upsert_first_keys (VStr s) (pd.cell col r) groups Hnd) as [? Hk].
    split; [done|]. intros k. rewrite Hk. split; intros [?|?]; auto.
    + right. by subst.
    + right. tauto.
Qed.

Lemma first_groups_keys key col rs : ∀ groups,
  NoDup (map fst groups) →
  NoDup (map fst (foldl (pd.group_step key col) groups rs))
  ∧ ∀ k, k ∈ map fst (foldl (pd.group_step key col) groups rs)
         ↔ k ∈ map fst groups ∨ (k ≠ VNone ∧ k ∈ map (pd.cell key) rs).
Proof.
  induction rs as [|r rs IH]; intros groups Hnd.
  - simpl. split; [done|]. intros k. split; [by left|].
    intros [?|[_ Hin]]; [done | by apply elem_of_nil in Hin].
  - cbn [foldl map].
    destruct (group_step_keys key col groups r Hnd) as [Hnd' Hkeys].
    destruct (IH _ Hnd') as [Hnd'' Hall]. split; [done|].
    intros k. rewrite (Hall k), (Hkeys k), elem_of_cons. tauto.
Qed.

(** The group keys are the cells of the key column that are not missing,
    each of them once. *)
Lemma groups_keys key col rs :
  let keys := map fst (pd.sort_groups (pd.first_groups key col rs)) in
  NoDup keys ∧ ∀ k, k ∈ keys ↔ k ≠ VNone ∧ k ∈ map (pd.cell key) rs.
Proof.
  intros keys.
  destruct (first_groups_keys key col rs [] (NoDup_nil_2)) as [Hnd Hkeys].
  assert (Hperm : keys ≡ₚ map fst (pd.first_groups key col rs)).
  { unfold keys. by rewrite sort_groups_perm. }
  split.
  - by rewrite Hperm.
  - intros k. rewrite Hperm. unfold pd.first_groups. rewrite (Hkeys k). simpl.
    split; [intros [Hin|?]; [by apply elem_of_nil in Hin | done] | by right].
Qed.

(** *** Node tables *)

Lemma nodes_of_ids key col df nodes :
  (key, col) = (ColumnNames.SOURCE, ColumnNames.SOURCE_TYPE)
  ∨ (key, col) = (ColumnNames.TARGET, ColumnNames.TARGET_TYPE) →
  nodes_of key col df = Return nodes →
  columns nodes = [ColumnNames.ID; ColumnNames.TYPE]
  ∧ map (pd.cell ColumnNames.ID) (rows nodes)
    = map fst (pd.sort_groups (pd.first_groups key col (rows df))).
Proof.
  intros Hside H. unfold nodes_of in H.
  apply obind_Return in H as (g & Hg & H).
  unfold pd.groupby_first in Hg. do 2 (case_bool_decide; [discriminate|]).
  injection Hg as <-.
  destruct Hside as [[= -> ->]|[= -> ->]]; cbn in H; injection H as <-; simpl;
    (split; [reflexivity|]); rewrite !map_map; apply map_ext; intros [k v];
    vm_compute; reflexivity.
Qed.

Lemma imap_insert_cells c c' (f : nat → value) (rs : list (gmap string value)) :
  c ≠ c' →
  map (pd.cell c) (imap (fun i r => <[c' := f i]> r) rs) = map (pd.cell c) rs.
Proof.
  intros Hne. revert f. induction rs as [|r rs IH]; intros f; [done|].
  rewrite imap_cons. simpl. f_equal.
  - unfold pd.cell. by rewrite lookup_insert_ne.
  - apply (IH (f ∘ S)).
Qed.

Lemma reset_index_cells c df df' :
  c ≠ "index" → c ≠ "level_0" →
  pd.reset_index df = Return df' →
  map (pd.cell c) (rows df') = map (pd.cell c) (rows df).
Proof.
  intros Hi Hl. unfold pd.reset_index. destruct (index df).
  - case_bool_decide; [discriminate|]. intros [= <-]. simpl.
    apply (imap_insert_cells c _ (fun i => VInt (Z.of_nat i))).
    by case_bool_decide.
  - destruct (filter _ _); [|discriminate]. by intros [= <-].
Qed.

(** *** The calls to the graph service *)

Section Graph.

Variable api_graph_call : VTLookupV3 → Event → outcome unit.
Variable api_graph_id : VTLookupV3 → string.

Lemma graph_call_run ev self :
  graph_call api_graph_call ev self = (api_graph_call self ev, extend self [ev]).
Proof. reflexivity. Qed.

Lemma add_node_all nodes_df rs : ∀ self units self',
  mapM (add_node api_graph_call nodes_df) rs self = (Return units, self') →
  self' = extend self (map node_event rs).
Proof.
  induction rs as [|r rs IH]; intros self units self' H.
  - injection H as <- <-. by rewrite extend_nil.
  - cbn [mapM] in H. apply bind_Return in H as (u & self1 & Hnode & H).
    apply bind_Return in H as (us & self2 & Hrest & H). injection H as <- <-.
    apply IH in Hrest. subst self2.
    unfold add_node, bind, lift, pd.row_getitem in Hnode.
    repeat (case_bool_decide; [|discriminate]).
    rewrite graph_call_run in Hnode. injection Hnode as _ <-.
    exact (extend_extend self [node_event r] (map node_event rs)).
Qed.

Lemma add_link_all df rs : ∀ self units self',
  mapM (add_link api_graph_call df) rs self = (Return units, self') →
  self' = extend self (map link_event rs).
Proof.
  induction rs as [|r rs IH]; intros self units self' H.
  - injection H as <- <-. by rewrite extend_nil.
  - cbn [mapM] in H. apply bind_Return in H as (u & self1 & Hlink & H).
    apply bind_Return in H as (us & self2 & Hrest & H). injection H as <- <-.
    apply IH in Hrest. subst self2.
    unfold add_link, bind, lift, pd.row_getitem in Hlink.
    repeat (case_bool_decide; [|discriminate]).
    rewrite graph_call_run in Hlink. injection Hlink as _ <-.
    exact (extend_extend self [link_event r] (map link_event rs)).
Qed.


End Graph.

(** ** Concrete runs *)



(** C2 does not hold as stated: a lookup rejected for its kind returns
    with the connection still open, and in a batch the lookup that
    follows such a row is issued on the open connection. *)
Lemma rejected_lookup_leaves_connection_open :
  ¬ (∀ api_get_object observable vt_type self,
       closed (lookup_ioc api_get_object observable vt_type self).2 = true)
  ∧ trace (lookup_iocs Mock.get_object
             (Mock.indicators [Mock.indicator "q" "hash"; Mock.indicator "abc123" "file"])
             "target" "target_type" Mock.client).2
    = [EvPrint "ERROR	 It was not possible to obtain results for hash q";
       EvGetObject false "/files/abc123";
       EvClose].
Proof.
  split.
  - intros H.
    specialize (H Mock.get_object (VStr "abc123") (VStr "hash") Mock.client).
    vm_compute in H. discriminate.
  - vm_compute. reflexivity.
Qed.

Lemma lookup_ioc_closes_after_fetch_witness :
  VTEntityType_call (inl (VStr "file")) = Return FILE
  ∧ closed (lookup_ioc Mock.get_object (VStr "abc123") (VStr "file") Mock.client).2 = true.
Proof.
  split; [reflexivity|].
  destruct (lookup_ioc_closes_after_fetch Mock.get_object Mock.iterator) as [Hcloses _].
  apply (Hcloses (VStr "abc123") (VStr "file") FILE Mock.client). reflexivity.
Defined.

(** C3 does not hold as stated: with [limit = 0] the method returns the
    empty frame and the connection is still open. *)
Lemma limit_zero_leaves_connection_open :
  ¬ (∀ api_get_object api_iterator observable vt_type relationship limit self,
       closed (lookup_ioc_relationships api_get_object api_iterator
                 observable vt_type relationship limit self).2 = true).
Proof.
  intros H.
  specialize (H Mock.get_object Mock.iterator (VStr "abc123") (VStr "file")
                "contacted_domains" (JInt 0) Mock.client).
  vm_compute in H. discriminate.
Qed.

Lemma lookup_ioc_relationships_closes_after_paging_witness :
  let self' := (lookup_ioc_relationships Mock.get_object Mock.iterator
                  (VStr "abc123") (VStr "file") "contacted_domains" (JInt 5)
                  Mock.client).2 in
  closed self' = true ∧ last (trace self') = Some EvClose.
Proof.
  intros self'.
  apply (proj1 (lookup_ioc_relationships_closes_after_paging
                  Mock.get_object Mock.iterator
                  (VStr "abc123") (VStr "file") "contacted_domains" (JInt 5) Mock.client)
               (EvIterator false "/files/abc123/relationships/contacted_domains" 40 (JInt 5))).
  - vm_compute. apply list_elem_of_here.
  - reflexivity.
Defined.

Lemma unknown_kind_raises_ValueError_witness :
  lookup_ioc Mock.get_object (VStr "abc123") (VStr "hash") Mock.client
  = (Raise (ValueError "'hash' is not a valid VTEntityType"), Mock.client)
  ∧ lookup_ioc_relationships Mock.get_object Mock.iterator
      (VStr "abc123") (VStr "hash") "contacted_domains" JNull Mock.client
    = (Raise (ValueError "'hash' is not a valid VTEntityType"), Mock.client).
Proof.
  destruct (unknown_kind_raises_ValueError Mock.get_object Mock.iterator
              (VStr "abc123") (VStr "hash") "contacted_domains" JNull Mock.client)
    as (_ & Hone & Hrel).
  - intros t. destruct t; discriminate.
  - split; [exact Hone | exact Hrel].
Defined.

Lemma lookup_iocs_row_per_item_witness :
  ∃ df,
    fst (lookup_iocs Mock.get_object
           (Mock.indicators [Mock.indicator "abc123" "file";
                             Mock.indicator "unknown" "file";
                             Mock.indicator "q" "hash"])
           "target" "target_type" Mock.client) = Return df
    ∧ length (rows df) = 3%nat.
Proof.
  destruct (lookup_iocs_row_per_item Mock.get_object
              (Mock.indicators [Mock.indicator "abc123" "file";
                                Mock.indicator "unknown" "file";
                                Mock.indicator "q" "hash"])
              (Mock.reset (Mock.indicators [Mock.indicator "abc123" "file";
                                            Mock.indicator "unknown" "file";
                                            Mock.indicator "q" "hash"]))
              "target" "target_type" Mock.client)
    as (df & results & Hdf & _ & Hrows & _).
  - vm_compute. reflexivity.
  - vm_compute. repeat constructor.
  - vm_compute. repeat constructor.
  - exists df. split; [exact Hdf | exact Hrows].
Defined.

Lemma lookup_abc123_witness :
  ∃ df row,
    fst (lookup_ioc Mock.get_object (VStr "abc123") (VStr "file") Mock.client) = Return df
    ∧ index df = [ColumnNames.ID]
    ∧ rows df = [row]
    ∧ row !! ColumnNames.ID = Some (VStr "abc123")
    ∧ row !! ColumnNames.DETECTIONS = Some (VInt 3)
    ∧ row !! ColumnNames.SCANS = Some (VInt 63).
Proof.
  apply (lookup_abc123 Mock.get_object Mock.abc123 Mock.client); reflexivity.
Defined.

Lemma lookup_ioc_relationships_no_metadata_witness :
  ∃ evs,
    lookup_ioc_relationships Mock.get_object Mock.iterator
      (VStr "unknown") (VStr "file") "contacted_domains" JNull Mock.client
    = (Return pd.DataFrame_, extend Mock.client evs)
    ∧ filter is_paging evs = [].
Proof.
  destruct (lookup_ioc_relationships_no_metadata Mock.get_object Mock.iterator
              (VStr "unknown") (VStr "file") FILE "contacted_domains" Mock.client)
    as (evs & Hcall & Hevs).
  - reflexivity.
  - left. eexists. vm_compute. reflexivity.
  - exists evs. split; [exact Hcall | exact Hevs].
Defined.

Lemma lookup_iocs_missing_column_witness :
  lookup_iocs Mock.get_object Mock.values_only "target" "target_type" Mock.client
  = (Raise (KeyError "Column target_type not found in observables_df"), Mock.client).
Proof.
  destruct (lookup_iocs_missing_column Mock.get_object Mock.values_only
              (Mock.reset Mock.values_only) "target" "target_type" Mock.client)
    as (column & [Hcol|Hcol] & Hraise).
  - vm_compute. reflexivity.
  - right. vm_compute. intros Hin.
    repeat (apply elem_of_cons in Hin as [Hin|Hin]; [discriminate|]).
    by apply elem_of_nil in Hin.
  - vm_compute. reflexivity.
  - rewrite Hraise, Hcol. reflexivity.
Defined.

Lemma lookup_ioc_relationships_limit_zero_witness :
  lookup_ioc_relationships Mock.get_object Mock.iterator
    (VStr "abc123") (VStr "file") "contacted_domains" (JInt 0) Mock.client
  = (Return pd.DataFrame_, Mock.client).
Proof.
  apply (lookup_ioc_relationships_limit_zero Mock.get_object Mock.iterator
           (VStr "abc123") (VStr "file") FILE).
  reflexivity.
Defined.

Lemma missing_stats_fails_lookup_witness :
  fst (lookup_ioc Mock.get_object (VStr "example.org") (VStr "domain") Mock.client)
  = Raise (Exception "It was not possible to get the data").
Proof.
  apply (proj2 (missing_stats_fails_lookup Mock.get_object Mock.example_org
                  [("country", JStr "US")] eq_refl eq_refl)
               (VStr "example.org") (VStr "domain") DOMAIN Mock.client);
    reflexivity.
Defined.

(** ** Further properties: kinds, endpoints and parsing *)

(** X1. The enumeration constructor and [.value] are inverse to each
    other: a member is recovered from its value, and a scalar accepted by
    the constructor is the value of the member it yields. *)
Theorem VTEntityType_round_trip (t : VTEntityType) (v : value) :
  VTEntityType_call (inl v) = Return t ↔ v = VStr (VTEntityType_value t).
Proof.
  split.
  - destruct v as [|z|s]; try discriminate.
    unfold VTEntityType_call, VTEntityType_of_string. simpl.
    repeat (case_bool_decide as E; [ intros [= <-]; subst; reflexivity | clear E ]).
    discriminate.
  - intros ->. by destruct t.
Qed.

(** X2. [_get_endpoint_name] returns exactly on the four kinds, whether
    given as a string or as a member, with one endpoint per kind and no
    endpoint shared by two kinds; on anything else it raises the
    [ValueError] of the constructor, never the [KeyError] of its guard. *)
Theorem _get_endpoint_name_spec (v : value) :
  (∀ t, v = VStr (VTEntityType_value t) →
        _get_endpoint_name (inl v) = Return (endpoint t)
        ∧ _get_endpoint_name (inr t) = Return (endpoint t))
  ∧ ((∀ t, v ≠ VStr (VTEntityType_value t)) →
     ∃ msg, _get_endpoint_name (inl v) = Raise (ValueError msg))
  ∧ (∀ t1 t2, endpoint t1 = endpoint t2 → t1 = t2).
Proof.
  split; [|split].
  - intros t ->. split; by destruct t.
  - intros Hout. unfold _get_endpoint_name.
    rewrite (VTEntityType_call_outside v Hout). by eexists.
  - intros [] []; simpl; intros H; try reflexivity; discriminate.
Qed.

(** X20. [supported_vt_types] lists each kind once, and the values of
    its members are exactly the scalars the enumeration constructor
    accepts: what the property announces is what the lookups take. *)
Theorem supported_vt_types_accepted :
  NoDup supported_vt_types
  ∧ ∀ v, is_Return (VTEntityType_call (inl v)) = true
         ↔ ∃ t, t ∈ supported_vt_types ∧ v = VStr (VTEntityType_value t).
Proof.
  split.
  - unfold supported_vt_types, _SUPPORTED_VT_TYPES.
    repeat (apply NoDup_cons; split;
            [intros Hin;
             repeat (apply elem_of_cons in Hin as [Hin|Hin]; [discriminate|]);
             by apply elem_of_nil in Hin|]).
    apply NoDup_nil_2.
  - intros v. split.
    + intros Hret. destruct (VTEntityType_call (inl v)) as [t|] eqn:Hcall; [|discriminate].
      exists t. split; [apply all_members_supported|].
      by apply VTEntityType_call_inside.
    + intros (t & _ & ->). by destruct t.
Qed.

Lemma elem_of_add_column c c' cols :
  c' ∈ pd.add_column c cols ↔ c' = c ∨ c' ∈ cols.
Proof.
  unfold pd.add_column. case_bool_decide as Hin.
  - split; [by right | intros [-> | ?]; done].
  - rewrite elem_of_app, list_elem_of_singleton. tauto.
Qed.

(** The last three lines of [_parse_vt_object] on a frame of one row. *)
Lemma inject_id_type cols r0 oid oty :
  (let? df := pd.setitem_list ColumnNames.ID [VStr oid]
                {| index := []; columns := cols; rows := [r0] |} in
   let? df := pd.setitem_list ColumnNames.TYPE [VStr oty] df in
   pd.set_index [ColumnNames.ID] df)
  = Return {| index := [ColumnNames.ID];
              columns := filter (fun c => c ∉ [ColumnNames.ID])
                           (pd.add_column ColumnNames.TYPE
                              (pd.add_column ColumnNames.ID cols));
              rows := [<[ColumnNames.TYPE := VStr oty]>
                         (<[ColumnNames.ID := VStr oid]> r0)] |}.
Proof.
  unfold pd.setitem_list at 1. simpl. unfold pd.setitem_list. simpl.
  unfold pd.set_index. simpl.
  rewrite filter_cons_False; [reflexivity|].
  intros Hn. apply Hn. apply elem_of_add_column. right.
  apply elem_of_add_column. by left.
Qed.

(** An object without attributes: the empty frame with its two cells. *)
Lemma _parse_vt_object_bare (vt_object : VTObject) :
  obj_attributes vt_object = None →
  _parse_vt_object vt_object
  = Return {| index := [ColumnNames.ID];
              columns := [ColumnNames.TYPE];
              rows := [<[ColumnNames.TYPE := VStr (obj_type vt_object)]>
                         {[ColumnNames.ID := VStr (obj_id vt_object)]}] |}.
Proof.
  intros Hattr. unfold _parse_vt_object, to_dict. rewrite Hattr. reflexivity.
Qed.

(** X3. An object without attributes parses, whatever its type (also a
    type outside the four kinds), to the frame [lookup_iocs] builds as
    the stub of a failed row: one row keyed by the identifier with the
    type as its only column.  A lookup that fetches such an object
    returns that frame, made of the identifier and the type of the
    object, not of the observable and the kind that were asked for. *)
Theorem _parse_vt_object_without_attributes (vt_object : VTObject) :
  obj_attributes vt_object = None →
  _parse_vt_object vt_object
  = stub (VStr (obj_id vt_object)) (VStr (obj_type vt_object))
  ∧ ∀ api_get_object observable vt_type t self,
      VTEntityType_call (inl vt_type) = Return t →
      api_get_object self (object_path t observable) = Return vt_object →
      (lookup_ioc api_get_object observable vt_type self).1
      = Return {| index := [ColumnNames.ID];
                  columns := [ColumnNames.TYPE];
                  rows := [stub_row (VStr (obj_id vt_object),
                                     VStr (obj_type vt_object))] |}.
Proof.
  intros Hattr.
  assert (Hrow : <[ColumnNames.TYPE := VStr (obj_type vt_object)]>
                   ({[ColumnNames.ID := VStr (obj_id vt_object)]} : gmap string value)
                 = stub_row (VStr (obj_id vt_object), VStr (obj_type vt_object))).
  { unfold stub_row. simpl. rewrite insert_empty. by apply insert_insert_ne. }
  split.
  - rewrite stub_frame, (_parse_vt_object_bare _ Hattr). by rewrite Hrow.
  - intros api_get_object observable vt_type t self Hkind Hfetch.
    rewrite (lookup_ioc_fetch api_get_object observable vt_type t self Hkind).
    simpl. rewrite Hfetch, (_parse_vt_object_bare _ Hattr). by rewrite Hrow.
Qed.

Lemma py_sum_Return (l : list json) :
  is_Return (py_sum l) = true ↔ Forall (fun j => is_int j = true) l.
Proof.
  induction l as [|j l IH]; simpl.
  - split; [constructor | done].
  - destruct j as [|z|s|d]; simpl;
      try (split; [done | intros H; by inversion H]).
    destruct (py_sum l) as [n|e]; simpl in *.
    + split; [intros _; constructor; [done | by apply IH] | done].
    + split; [done | intros H; inversion H; subst; by apply IH].
Qed.

Lemma dict_get_values k d v : dict_get k d = Some v → v ∈ dict_values d.
Proof.
  induction d as [|[k' v'] d IH]; simpl; [done|].
  case_bool_decide.
  - intros [= ->]. apply list_elem_of_here.
  - intros Hget. apply list_elem_of_further. by apply IH.
Qed.

(** With integer counts that are not negative, no count exceeds the sum. *)
Lemma py_sum_bound (l : list json) (n z : Z) :
  py_sum l = Return n →
  (∀ z', JInt z' ∈ l → 0 ≤ z') →
  JInt z ∈ l → z ≤ n.
Proof.
  revert n. induction l as [|j l IH]; intros n Hsum Hpos Hin.
  - by apply elem_of_nil in Hin.
  - destruct j as [|z0|s|d]; try discriminate. simpl in Hsum.
    destruct (py_sum l) as [m|e] eqn:Hm; [|discriminate]. injection Hsum as <-.
    assert (0 ≤ z0) by (apply Hpos, list_elem_of_here).
    assert (0 ≤ m).
    { clear IH Hin. revert m Hm.
      induction l as [|j l IHl]; intros m Hm.
      - injection Hm as <-. lia.
      - destruct j as [|z1|s|d]; try discriminate. simpl in Hm.
        destruct (py_sum l) as [m'|e] eqn:Hm'; [|discriminate]. injection Hm as <-.
        assert (0 ≤ z1) by (apply Hpos, list_elem_of_further, list_elem_of_here).
        assert (0 ≤ m'); [|lia].
        apply IHl; [|done]. intros z' Hz'. apply Hpos.
        apply elem_of_cons in Hz' as [Hz'|Hz'].
        + rewrite Hz'. apply list_elem_of_here.
        + by do 2 apply list_elem_of_further. }
    apply elem_of_cons in Hin as [[= ->]|Hin]; [lia|].
    assert (z ≤ m); [|lia].
    apply IH; [done| |done]. intros z' Hz'. by apply Hpos, list_elem_of_further.
Qed.

(** The attribute branch of [_parse_vt_object], when every step goes
    through. *)
Lemma _parse_vt_object_attributes vt_object attributes t stats malicious scans :
  obj_attributes vt_object = Some attributes →
  VTEntityType_of_string (obj_type vt_object) = Some t →
  dict_get VTObjectPorperties.LAST_ANALYSIS_STATS attributes = Some (JDict stats) →
  dict_get VTObjectPorperties.MALICIOUS stats = Some malicious →
  py_sum (dict_values stats) = Return scans →
  ∃ cols r0,
    pd.json_normalize (basic_properties t attributes)
    = {| index := []; columns := cols; rows := [r0] |}
    ∧ _parse_vt_object vt_object
      = Return {| index := [ColumnNames.ID];
                  columns := filter (fun c => c ∉ [ColumnNames.ID])
                               (pd.add_column ColumnNames.TYPE
                                  (pd.add_column ColumnNames.ID
                                     (pd.add_column ColumnNames.SCANS
                                        (pd.add_column ColumnNames.DETECTIONS cols))));
                  rows := [<[ColumnNames.TYPE := VStr (obj_type vt_object)]>
                             (<[ColumnNames.ID := VStr (obj_id vt_object)]>
                                (<[ColumnNames.SCANS := VInt scans]>
                                   (<[ColumnNames.DETECTIONS := cell_of_json malicious]>
                                      r0)))] |}.
Proof.
  intros Hattr Hty Hstats Hmal Hsum.
  eexists _, _. split; [reflexivity|].
  unfold _parse_vt_object, to_dict. rewrite Hattr.
  change (dict_get VTObjectPorperties.ATTRIBUTES _) with (Some (JDict attributes)).
  cbv beta iota. unfold VTEntityType_call. rewrite Hty.
  unfold obind at 2. rewrite supported_true. unfold negb, obind at 2, obind at 2.
  unfold py_getitem at 1. rewrite Hstats. unfold obind at 2.
  unfold py_getitem. rewrite Hmal. unfold obind at 2. rewrite Hsum. unfold obind at 2.
  unfold obind at 1. unfold pd.setitem, pd.json_normalize. simpl map. cbn [index columns rows].
  apply inject_id_type.
Qed.

Lemma _parse_vt_object_inv vt_object attributes df :
  obj_attributes vt_object = Some attributes →
  _parse_vt_object vt_object = Return df →
  ∃ t stats malicious scans,
    VTEntityType_of_string (obj_type vt_object) = Some t
    ∧ dict_get VTObjectPorperties.LAST_ANALYSIS_STATS attributes = Some (JDict stats)
    ∧ dict_get VTObjectPorperties.MALICIOUS stats = Some malicious
    ∧ py_sum (dict_values stats) = Return scans.
Proof.
  intros Hattr H. unfold _parse_vt_object, to_dict in H. rewrite Hattr in H.
  change (dict_get VTObjectPorperties.ATTRIBUTES _) with (Some (JDict attributes)) in H.
  cbv beta iota in H.
  apply obind_Return in H as (df0 & H & _).
  apply obind_Return in H as (t & Ht & H).
  unfold VTEntityType_call in Ht.
  destruct (VTEntityType_of_string (obj_type vt_object)) as [t'|] eqn:Hty; [|discriminate].
  injection Ht as ->.
  rewrite supported_true in H. cbn [negb] in H.
  apply obind_Return in H as (a & [= <-] & H).
  apply obind_Return in H as (las & Hlas & H).
  apply obind_Return in H as (malicious & Hmal & H).
  apply obind_Return in H as (scans & Hsum & _).
  unfold py_getitem in Hlas.
  destruct (dict_get VTObjectPorperties.LAST_ANALYSIS_STATS attributes)
    as [las'|] eqn:Hget; [|discriminate].
  injection Hlas as ->.
  destruct las as [|z|s|stats]; try discriminate.
  simpl in Hmal.
  destruct (dict_get VTObjectPorperties.MALICIOUS stats) as [m|] eqn:Hm; [|discriminate].
  injection Hmal as ->.
  by exists t, stats, malicious, scans.
Qed.

(** X4. [_parse_vt_object] returns exactly in two cases: the object has
    no attributes, or its type is one of the four kinds and its
    attributes hold a [last_analysis_stats] object with a [malicious]
    entry and counts that [sum] can add up.  Integer counts can always
    be added up, so with them the first conditions are enough. *)
Theorem _parse_vt_object_returns_iff (vt_object : VTObject) :
  (is_Return (_parse_vt_object vt_object) = true
   ↔ obj_attributes vt_object = None
     ∨ ∃ attributes t stats,
         obj_attributes vt_object = Some attributes
         ∧ VTEntityType_of_string (obj_type vt_object) = Some t
         ∧ dict_get VTObjectPorperties.LAST_ANALYSIS_STATS attributes = Some (JDict stats)
         ∧ is_Some (dict_get VTObjectPorperties.MALICIOUS stats)
         ∧ is_Return (py_sum (dict_values stats)) = true)
  ∧ ∀ attributes t stats,
      obj_attributes vt_object = Some attributes →
      VTEntityType_of_string (obj_type vt_object) = Some t →
      dict_get VTObjectPorperties.LAST_ANALYSIS_STATS attributes = Some (JDict stats) →
      is_Some (dict_get VTObjectPorperties.MALICIOUS stats) →
      Forall (fun count => is_int count = true) (dict_values stats) →
      is_Return (_parse_vt_object vt_object) = true.
Proof.
  assert (Hif : ∀ attributes t stats,
             obj_attributes vt_object = Some attributes →
             VTEntityType_of_string (obj_type vt_object) = Some t →
             dict_get VTObjectPorperties.LAST_ANALYSIS_STATS attributes
             = Some (JDict stats) →
             is_Some (dict_get VTObjectPorperties.MALICIOUS stats) →
             is_Return (py_sum (dict_values stats)) = true →
             is_Return (_parse_vt_object vt_object) = true).
  { intros attributes t stats Hattr Hty Hstats [m Hmal] Hsum.
    destruct (py_sum (dict_values stats)) as [scans|] eqn:Hscans; [|discriminate].
    destruct (_parse_vt_object_attributes _ _ _ _ _ _ Hattr Hty Hstats Hmal Hscans)
      as (cols & r0 & _ & ->).
    reflexivity. }
  split; [split|].
  - intros H. destruct (obj_attributes vt_object) as [attributes|] eqn:Hattr; [|by left].
    right. destruct (_parse_vt_object vt_object) as [df|] eqn:Hparse; [|discriminate].
    destruct (_parse_vt_object_inv _ _ _ Hattr Hparse)
      as (t & stats & malicious & scans & Hty & Hstats & Hmal & Hsum).
    exists attributes, t, stats. repeat split; try done. by rewrite Hsum.
  - intros [Hnone|(attributes & t & stats & Hattr & Hty & Hstats & Hmal & Hsum)].
    + by rewrite _parse_vt_object_bare.
    + by apply (Hif attributes t stats).
  - intros attributes t stats Hattr Hty Hstats Hmal Hints.
    apply (Hif attributes t stats); try done. by apply py_sum_Return.
Qed.

(** X5. The record of an object with attributes is one row keyed by the
    object's own identifier; [detections] is the [malicious] count and
    [scans] the sum of all the counts, so that with counts that are not
    negative [detections] never exceeds [scans]. *)
Theorem _parse_vt_object_record vt_object attributes df :
  obj_attributes vt_object = Some attributes →
  _parse_vt_object vt_object = Return df →
  ∃ row stats detections scans,
    index df = [ColumnNames.ID]
    ∧ rows df = [row]
    ∧ row !! ColumnNames.ID = Some (VStr (obj_id vt_object))
    ∧ row !! ColumnNames.TYPE = Some (VStr (obj_type vt_object))
    ∧ row !! ColumnNames.DETECTIONS = Some (VInt detections)
    ∧ row !! ColumnNames.SCANS = Some (VInt scans)
    ∧ dict_get VTObjectPorperties.LAST_ANALYSIS_STATS attributes = Some (JDict stats)
    ∧ dict_get VTObjectPorperties.MALICIOUS stats = Some (JInt detections)
    ∧ py_sum (dict_values stats) = Return scans
    ∧ ((∀ count, JInt count ∈ dict_values stats → 0 ≤ count) → detections ≤ scans).
Proof.
  intros Hattr Hparse.
  destruct (_parse_vt_object_inv _ _ _ Hattr Hparse)
    as (t & stats & malicious & scans & Hty & Hstats & Hmal & Hsum).
  destruct (_parse_vt_object_attributes _ _ _ _ _ _ Hattr Hty Hstats Hmal Hsum)
    as (cols & r0 & _ & Heq).
  rewrite Heq in Hparse. injection Hparse as <-.
  assert (Hint : is_int malicious = true).
  { assert (Hall : Forall (fun j => is_int j = true) (dict_values stats))
      by (apply py_sum_Return; by rewrite Hsum).
    rewrite Forall_forall in Hall. by apply Hall, (dict_get_values _ _ _ Hmal). }
  destruct malicious as [|detections|s|d]; try discriminate.
  eexists _, stats, detections, scans. simpl.
  split; [done|]. split; [reflexivity|].
  split; [by rewrite lookup_insert_ne, lookup_insert_eq|].
  split; [by rewrite lookup_insert_eq|].
  split; [by rewrite !lookup_insert_ne, lookup_insert_eq by done|].
  split; [by rewrite !lookup_insert_ne, lookup_insert_eq by done|].
  repeat split; try done.
  intros Hpos. eapply py_sum_bound; [done|done|].
  by apply (dict_get_values _ _ _ Hmal).
Qed.

(** Induction on payloads, through the entries of objects. *)
Lemma json_induction (P : json → Prop) :
  P JNull →
  (∀ z, P (JInt z)) →
  (∀ s, P (JStr s)) →
  (∀ d, Forall (fun kv => P kv.2) d → P (JDict d)) →
  ∀ j, P j.
Proof.
  intros Hnull Hint Hstr Hdict.
  fix IH 1. intros [|z|s|d]; [done..|].
  apply Hdict. induction d as [|[k v] d IHd]; constructor; [apply IH | exact IHd].
Qed.

Lemma append_assoc (a b c : string) : (a +:+ b) +:+ c = a +:+ (b +:+ c).
Proof.
  induction a as [|x a IH]; [done|].
  change (String x ((a +:+ b) +:+ c) = String x (a +:+ (b +:+ c))). by rewrite IH.
Qed.

Lemma below_trans key k label :
  below (key +:+ "." +:+ k) label → below key label.
Proof.
  intros [-> | [rest ->]]; right.
  - by exists k.
  - exists (k +:+ "." +:+ rest). by rewrite append_assoc.
Qed.

Lemma flatten_labels (j : json) : ∀ key label v,
  (label, v) ∈ pd.flatten key j → below key label.
Proof.
  induction j as [|z|s|d IH] using json_induction; intros key label v Hin;
    try (apply list_elem_of_singleton in Hin; injection Hin as -> _; by left).
  simpl in Hin. induction d as [|[k j] d IHd]; [by apply elem_of_nil in Hin|].
  apply Forall_cons in IH as [Hj Hd].
  apply elem_of_app in Hin as [Hin|Hin].
  - apply (below_trans key k). by apply (Hj _ _ v).
  - by apply IHd.
Qed.

Lemma basic_properties_keys t attributes key j :
  (key, j) ∈ basic_properties t attributes → key ∈ allowlist t.
Proof.
  unfold basic_properties. fold (allowlist t). intros Hin.
  apply list_elem_of_In, in_flat_map in Hin as (k & Hk & Hin).
  destruct (dict_get k attributes); simpl in Hin; [|done].
  destruct Hin as [[= -> _]|[]]. by apply list_elem_of_In.
Qed.

Lemma normalized_cells t attributes label v :
  (label, v) ∈ flat_map (fun kv => pd.flatten kv.1 kv.2) (basic_properties t attributes) →
  allowed_label t label.
Proof.
  intros Hin. apply list_elem_of_In, in_flat_map in Hin as ([key j] & Hkey & Hin).
  exists key. split.
  - by apply (basic_properties_keys t attributes key j), list_elem_of_In.
  - by apply (flatten_labels j key label v), list_elem_of_In.
Qed.

Lemma elem_of_foldl_add_column {A} (label : A → string) (cells : list A) : ∀ cols c,
  c ∈ foldl (fun acc kv => pd.add_column (label kv) acc) cols cells
  ↔ c ∈ cols ∨ c ∈ map label cells.
Proof.
  induction cells as [|kv cells IH]; intros cols c; simpl.
  - split; [by left | intros [?|Hin]; [done | by apply elem_of_nil in Hin]].
  - rewrite IH, elem_of_add_column, elem_of_cons. tauto.
Qed.

(** X6. Only allowlisted attributes reach the record: every column is
    [detections], [scans], [type], or a property of the allowlist of the
    object's kind (or a dotted path below one).  [last_analysis_stats]
    itself, like any other attribute, is left out. *)
Theorem _parse_vt_object_columns vt_object attributes t df :
  obj_attributes vt_object = Some attributes →
  VTEntityType_of_string (obj_type vt_object) = Some t →
  _parse_vt_object vt_object = Return df →
  ∀ c, c ∈ columns df →
       c ∈ [ColumnNames.DETECTIONS; ColumnNames.SCANS; ColumnNames.TYPE]
       ∨ allowed_label t c.
Proof.
  intros Hattr Hty Hparse c Hc.
  destruct (_parse_vt_object_inv _ _ _ Hattr Hparse)
    as (t' & stats & malicious & scans & Hty' & Hstats & Hmal & Hsum).
  rewrite Hty in Hty'. injection Hty' as <-.
  destruct (_parse_vt_object_attributes _ _ _ _ _ _ Hattr Hty Hstats Hmal Hsum)
    as (cols & r0 & Hnorm & Heq).
  rewrite Heq in Hparse. injection Hparse as <-. simpl in Hc.
  apply list_elem_of_filter in Hc as [Hid Hc].
  rewrite !elem_of_add_column in Hc.
  destruct Hc as [->|[->|[->|[->|Hc]]]].
  - left. do 2 apply list_elem_of_further. apply list_elem_of_here.
  - exfalso. apply Hid. apply list_elem_of_here.
  - left. apply list_elem_of_further, list_elem_of_here.
  - left. apply list_elem_of_here.
  - right. unfold pd.json_normalize in Hnorm. injection Hnorm as <- _.
    apply elem_of_foldl_add_column in Hc as [Hc|Hc]; [by apply elem_of_nil in Hc|].
    apply list_elem_of_In, in_map_iff in Hc as ([label v] & <- & Hin).
    by apply (normalized_cells t attributes label v), list_elem_of_In.
Qed.

(** ** Further properties: single lookups *)

Lemma _parse_vt_object_frame vt_object df :
  _parse_vt_object vt_object = Return df →
  index df = [ColumnNames.ID]
  ∧ (ColumnNames.ID ∉ columns df)
  ∧ ∃ row, rows df = [row]
           ∧ row !! ColumnNames.ID = Some (VStr (obj_id vt_object))
           ∧ row !! ColumnNames.TYPE = Some (VStr (obj_type vt_object)).
Proof.
  intros Hparse. destruct (obj_attributes vt_object) as [attributes|] eqn:Hattr.
  - destruct (_parse_vt_object_inv _ _ _ Hattr Hparse)
      as (t & stats & malicious & scans & Hty & Hstats & Hmal & Hsum).
    destruct (_parse_vt_object_attributes _ _ _ _ _ _ Hattr Hty Hstats Hmal Hsum)
      as (cols & r0 & _ & Heq).
    rewrite Heq in Hparse. injection Hparse as <-. simpl. split; [done|]. split.
    + intros Hin. apply list_elem_of_filter in Hin as [Hn _].
      apply Hn, list_elem_of_here.
    + eexists. split; [reflexivity|]. split.
      * by rewrite lookup_insert_ne, lookup_insert_eq.
      * by rewrite lookup_insert_eq.
  - rewrite (_parse_vt_object_bare _ Hattr) in Hparse.
    injection Hparse as <-. simpl. split; [done|]. split.
    + intros Hin. apply list_elem_of_singleton in Hin. discriminate.
    + eexists. split; [reflexivity|]. split.
      * by rewrite lookup_insert_ne, lookup_singleton_eq.
      * by rewrite lookup_insert_eq.
Qed.

Lemma omapM_Return {A B} (f : A → outcome B) (l : list A) (bs : list B) :
  omapM f l = Return bs → Forall2 (fun a b => f a = Return b) l bs.
Proof.
  revert bs. induction l as [|a l IH]; intros bs H.
  - injection H as <-. constructor.
  - simpl in H. apply obind_Return in H as (b & Hb & H).
    apply obind_Return in H as (bs' & Hbs & [= <-]). constructor; [done | by apply IH].
Qed.

Lemma elem_of_concat_columns (dfs : list DataFrame) (c : string) :
  c ∈ pd.concat_columns dfs ↔ ∃ df, df ∈ dfs ∧ c ∈ columns df.
Proof.
  unfold pd.concat_columns.
  assert (Hgen : ∀ acc, c ∈ foldl (fun acc df =>
                                     foldl (fun acc c => pd.add_column c acc) acc (columns df))
                                  acc dfs
                        ↔ c ∈ acc ∨ ∃ df, df ∈ dfs ∧ c ∈ columns df).
  { induction dfs as [|df dfs IH]; intros acc; simpl.
    - split; [by left | intros [?|(df & Hin & _)]; [done | by apply elem_of_nil in Hin]].
    - rewrite IH, (elem_of_foldl_add_column id (columns df) acc c), map_id. split.
      + intros [[?|?]|(df' & ? & ?)]; [by left | right; exists df | right; exists df'].
        * split; [apply list_elem_of_here | done].
        * split; [by apply list_elem_of_further | done].
      + intros [?|(df' & Hin & ?)]; [left; by left|].
        apply elem_of_cons in Hin as [->|Hin]; [left; by right | right; by exists df']. }
  rewrite Hgen. split; [intros [Hin|?]; [by apply elem_of_nil in Hin | done] | by right].
Qed.

Lemma lookup_kmap_unique (f : string → string) (m : gmap string value) k v :
  m !! k = Some v →
  (∀ k', is_Some (m !! k') → f k' = f k → k' = k) →
  (kmap f m : gmap string value) !! f k = Some v.
Proof.
  intros Hk Huniq. unfold kmap.
  destruct (list_to_map (M := gmap string value)
              (prod_map f id <$> map_to_list m) !! f k) as [x|] eqn:Hx.
  - apply elem_of_list_to_map_2 in Hx.
    apply list_elem_of_fmap in Hx as ([k' x'] & [= Hf ->] & Hin).
    apply elem_of_map_to_list in Hin.
    rewrite (Huniq k') in Hin by (eauto || done). congruence.
  - apply not_elem_of_list_to_map in Hx. exfalso. apply Hx.
    apply list_elem_of_fmap. exists (f k, v). split; [done|].
    apply list_elem_of_fmap. exists (k, v). split; [done|].
    by apply elem_of_map_to_list.
Qed.

(** No allowlisted property flattens to one of the edge labels. *)
Lemma allowed_label_not_edge t label :
  allowed_label t label →
  label ≠ ColumnNames.TARGET ∧ label ≠ ColumnNames.TARGET_TYPE.
Proof.
  intros (key & Hkey & Hbelow). unfold allowlist in Hkey.
  destruct t; simpl in Hkey;
    repeat (apply elem_of_cons in Hkey as [->|Hkey]);
    try (by apply elem_of_nil in Hkey);
    (destruct Hbelow as [->|[rest ->]]; split; intros Heq; cbv in Heq; discriminate).
Qed.

(** The labels of a parsed row: the four fixed ones and allowlisted
    properties. *)
Lemma _parse_vt_object_row_labels vt_object df row label :
  _parse_vt_object vt_object = Return df →
  rows df = [row] →
  is_Some (row !! label) →
  label ∈ [ColumnNames.TYPE; ColumnNames.ID; ColumnNames.SCANS; ColumnNames.DETECTIONS]
  ∨ ∃ t, allowed_label t label.
Proof.
  intros Hparse Hrows Hsome.
  destruct (obj_attributes vt_object) as [attributes|] eqn:Hattr.
  - destruct (_parse_vt_object_inv _ _ _ Hattr Hparse)
      as (t & stats & malicious & scans & Hty & Hstats & Hmal & Hsum).
    destruct (_parse_vt_object_attributes _ _ _ _ _ _ Hattr Hty Hstats Hmal Hsum)
      as (cols & r0 & Hnorm & Heq).
    rewrite Heq in Hparse. injection Hparse as <-. injection Hrows as <-.
    rewrite !lookup_insert_is_Some in Hsome.
    destruct Hsome as [<-|[_ [<-|[_ [<-|[_ [<-|[_ Hsome]]]]]]]];
      try by (left; repeat first [apply list_elem_of_here | apply list_elem_of_further]).
    right. exists t. unfold pd.json_normalize in Hnorm. injection Hnorm as _ <-.
    destruct Hsome as [v Hv]. apply elem_of_list_to_map_2 in Hv.
    apply (normalized_cells t attributes label v). by apply elem_of_reverse.
  - rewrite (_parse_vt_object_bare _ Hattr) in Hparse.
    injection Hparse as <-. injection Hrows as <-.
    rewrite lookup_insert_is_Some, lookup_singleton_is_Some in Hsome.
    destruct Hsome as [<-|[_ <-]];
      by (left; repeat first [apply list_elem_of_here | apply list_elem_of_further]).
Qed.

(** The cells of an edge row. *)
Lemma edge_row_cells vt_object df row observable t relationship :
  _parse_vt_object vt_object = Return df →
  rows df = [row] →
  let edge := edge_row observable t relationship row in
  edge !! ColumnNames.SOURCE = Some observable
  ∧ edge !! ColumnNames.SOURCE_TYPE = Some (VStr (VTEntityType_value t))
  ∧ edge !! ColumnNames.RELATIONSHIP_TYPE = Some (VStr relationship)
  ∧ edge !! ColumnNames.TARGET = Some (VStr (obj_id vt_object))
  ∧ edge !! ColumnNames.TARGET_TYPE = Some (VStr (obj_type vt_object)).
Proof.
  intros Hparse Hrows edge.
  destruct (_parse_vt_object_frame _ _ Hparse) as (_ & _ & row' & Hrows' & Hid & Hty).
  rewrite Hrows in Hrows'. injection Hrows' as <-.
  set (f := pd.rename_label [(ColumnNames.ID, ColumnNames.TARGET);
                             (ColumnNames.TYPE, ColumnNames.TARGET_TYPE)]).
  set (m := <[ColumnNames.RELATIONSHIP_TYPE := VStr relationship]>
              (<[ColumnNames.SOURCE_TYPE := VStr (VTEntityType_value t)]>
                 (<[ColumnNames.SOURCE := observable]> row))).
  assert (Hlabels : ∀ k, is_Some (m !! k) →
            k ∈ [ColumnNames.RELATIONSHIP_TYPE; ColumnNames.SOURCE_TYPE; ColumnNames.SOURCE;
                 ColumnNames.TYPE; ColumnNames.ID; ColumnNames.SCANS; ColumnNames.DETECTIONS]
            ∨ ∃ t', allowed_label t' k).
  { intros k Hk. unfold m in Hk. rewrite !lookup_insert_is_Some in Hk.
    destruct Hk as [<-|[_ [<-|[_ [<-|[_ Hk]]]]]];
      try by (left; repeat first [apply list_elem_of_here | apply list_elem_of_further]).
    destruct (_parse_vt_object_row_labels _ _ _ _ Hparse Hrows Hk) as [Hin|?]; [|by right].
    left. by do 3 apply list_elem_of_further. }
  assert (Hf : ∀ k, f k = (if bool_decide (k = ColumnNames.ID) then ColumnNames.TARGET
                           else if bool_decide (k = ColumnNames.TYPE)
                                then ColumnNames.TARGET_TYPE else k)) by done.
  assert (Huniq : ∀ k k', is_Some (m !! k') → is_Some (m !! k) → f k' = f k → k' = k).
  { intros k k' Hk' Hk. rewrite !Hf.
    assert (Hfixed : ∀ x, is_Some (m !! x) →
              x ≠ ColumnNames.TARGET ∧ x ≠ ColumnNames.TARGET_TYPE).
    { intros x Hx. destruct (Hlabels x Hx) as [Hin|[t' Ht']];
        [|by apply (allowed_label_not_edge t')].
      repeat (apply elem_of_cons in Hin as [->|Hin]); try done.
      by apply elem_of_nil in Hin. }
    destruct (Hfixed k Hk), (Hfixed k' Hk').
    repeat case_bool_decide; subst; intros Heq;
      first [congruence | discriminate Heq | done]. }
  assert (Hget : ∀ k v, m !! k = Some v → (kmap f m : gmap string value) !! f k = Some v).
  { intros k v Hk. apply lookup_kmap_unique; [done|].
    intros k' Hk'. apply Huniq; [done | by eexists]. }
  unfold edge, edge_row. fold f. fold m.
  split; [apply (Hget ColumnNames.SOURCE); unfold m;
          by rewrite !lookup_insert_ne, lookup_insert_eq by done|].
  split; [apply (Hget ColumnNames.SOURCE_TYPE); unfold m;
          by rewrite !lookup_insert_ne, lookup_insert_eq by done|].
  split; [apply (Hget ColumnNames.RELATIONSHIP_TYPE); unfold m;
          by rewrite lookup_insert_eq|].
  split.
  - apply (Hget ColumnNames.ID). unfold m. by rewrite !lookup_insert_ne by done.
  - apply (Hget ColumnNames.TYPE). unfold m. by rewrite !lookup_insert_ne by done.
Qed.

Section Paging.

Variable api_get_object : VTLookupV3 → string → outcome VTObject.
Variable api_iterator : VTLookupV3 → string → Z → json → outcome (list VTObject).

Lemma page_relationships_fails observable vt_type relationship endpoint_name limit self e :
  parsed_listing api_iterator self
    (relationships_path endpoint_name observable relationship) limit = Raise e →
  (page_relationships api_iterator observable vt_type relationship endpoint_name limit self).1
  = Raise lookup_failed.
Proof.
  unfold parsed_listing, page_relationships, try_finally, try_except, bind, iterator, lift,
    close, relationships_path. intros H.
  destruct (api_iterator self _ 40 limit) as [objects|e']; simpl in *; [|done].
  by rewrite H.
Qed.

Lemma page_relationships_empty observable vt_type relationship endpoint_name limit self :
  parsed_listing api_iterator self
    (relationships_path endpoint_name observable relationship) limit = Return [] →
  (page_relationships api_iterator observable vt_type relationship endpoint_name limit self).1
  = Return pd.DataFrame_.
Proof.
  unfold parsed_listing, page_relationships, try_finally, try_except, bind, iterator, lift,
    close, relationships_path. intros H.
  destruct (api_iterator self _ 40 limit) as [objects|e']; simpl in *; [|done].
  by rewrite H.
Qed.

Lemma page_relationships_frames observable vt_type t relationship endpoint_name limit
      self frame frames :
  VTEntityType_call (inl vt_type) = Return t →
  parsed_listing api_iterator self
    (relationships_path endpoint_name observable relationship) limit
  = Return (frame :: frames) →
  Forall (fun df => index df = [ColumnNames.ID] ∧ ColumnNames.ID ∉ columns df)
         (frame :: frames) →
  ∃ cols,
    (page_relationships api_iterator observable vt_type relationship endpoint_name limit
       self).1
    = Return {| index := [ColumnNames.SOURCE; ColumnNames.TARGET];
                columns := cols;
                rows := map (edge_row observable t relationship)
                            (concat (map rows (frame :: frames))) |}.
Proof.
  intros Hkind H Hframes.
  unfold parsed_listing in H.
  unfold page_relationships, try_finally, try_except, bind, iterator, lift,
    close, relationships_path in *.
  destruct (api_iterator self _ 40 limit) as [objects|e']; simpl in H; [|done].
  cbn [fst snd]. rewrite H. rewrite bool_decide_eq_true_2 by (simpl; lia).
  rewrite concat_rows, Hkind.
  rewrite (common_index_all [ColumnNames.ID]);
    [|apply kept_cons
     |apply kept_Forall; eapply Forall_impl; [exact Hframes | by intros d [? _]]].
  assert (Hid : ColumnNames.ID ∉ pd.concat_columns (frame :: frames)).
  { intros Hin. apply elem_of_concat_columns in Hin as (df & Hdf & Hin).
    rewrite Forall_forall in Hframes. by apply (Hframes df Hdf). }
  unfold pd.setitem, pd.reset_index. cbn [index columns rows].
  rewrite filter_cons_False.
  2:{ intros Hin. rewrite !elem_of_add_column in Hin.
      destruct Hin as [?|[?|[?|?]]]; done. }
  cbn [filter list_filter]. unfold pd.rename, pd.set_index. cbn [index columns rows].
  rewrite !filter_cons_False.
  - eexists. cbn [filter list_filter foldr fst]. rewrite !map_map. reflexivity.
  - intros Hn. apply Hn. cbn [map app]. apply list_elem_of_here.
  - intros Hn. apply Hn. cbn [map app]. apply list_elem_of_further.
    apply list_elem_of_In, in_map_iff. exists ColumnNames.SOURCE. split; [done|].
    apply list_elem_of_In. rewrite !elem_of_add_column. right. right. by left.
Qed.

Lemma lookup_ioc_relationships_explicit observable vt_type t relationship limit self :
  VTEntityType_call (inl vt_type) = Return t →
  limit ≠ JNull → limit ≠ JInt 0 →
  lookup_ioc_relationships api_get_object api_iterator
    observable vt_type relationship limit self
  = page_relationships api_iterator observable vt_type relationship (endpoint t) limit self.
Proof.
  intros Hkind Hnull Hzero.
  unfold lookup_ioc_relationships, bind, lift. rewrite Hkind.
  rewrite bool_decide_eq_false_2 by (intros Hn; apply Hn, all_members_supported).
  rewrite (_get_endpoint_name_value _ _ Hkind).
  by destruct limit as [|[|n|n]|s|d].
Qed.

Lemma lookup_ioc_relationships_counted observable vt_type t relationship self
      response rels entry meta count :
  VTEntityType_call (inl vt_type) = Return t →
  api_get_object self (counters_path t observable) = Return response →
  obj_relationships response = Some rels →
  dict_get relationship rels = Some entry →
  py_getitem entry "meta" = Return meta →
  py_getitem meta "count" = Return count →
  count ≠ JNull → count ≠ JInt 0 →
  lookup_ioc_relationships api_get_object api_iterator
    observable vt_type relationship JNull self
  = page_relationships api_iterator observable vt_type relationship (endpoint t) count
      (extend self [EvGetObject (closed self) (counters_path t observable)]).
Proof.
  intros Hkind Hfetch Hrels Hentry Hmeta Hcount Hnull Hzero.
  unfold lookup_ioc_relationships, bind, lift. rewrite Hkind.
  rewrite bool_decide_eq_false_2 by (intros Hn; apply Hn, all_members_supported).
  rewrite (_get_endpoint_name_value _ _ Hkind).
  unfold resolve_limit, bind, lift. rewrite Hkind, _get_endpoint_name_member.
  unfold try_except, bind, get_object, lift. fold (counters_path t observable).
  rewrite Hfetch. unfold relationships. rewrite Hrels.
  rewrite bool_decide_eq_true_2 by (by rewrite Hentry).
  unfold py_getitem at 1. rewrite Hentry. unfold obind. rewrite Hmeta, Hcount.
  unfold ret. fold (extend self [EvGetObject (closed self) (counters_path t observable)]).
  by destruct count as [|[|n|n]|s|d].
Qed.

(** X8. With a supported kind and a limit that is neither absent nor
    zero, [lookup_ioc_relationships] makes no metadata fetch: it issues
    one paging request, of batch size 40 and with the limit as given, at
    [/endpoint/observable/relationships/relationship], and then closes.
    It raises exactly when the listing or the parsing of one of its
    objects fails, and then with the generic exception. *)
Theorem lookup_ioc_relationships_with_limit observable vt_type t relationship limit self :
  VTEntityType_call (inl vt_type) = Return t →
  limit ≠ JNull → limit ≠ JInt 0 →
  let path := relationships_path (endpoint t) observable relationship in
  let call := lookup_ioc_relationships api_get_object api_iterator
                observable vt_type relationship limit self in
  since self call.2 = [EvIterator (closed self) path 40 limit; EvClose]
  ∧ closed call.2 = true
  ∧ is_Return call.1 = is_Return (parsed_listing api_iterator self path limit)
  ∧ (∀ e, call.1 = Raise e → e = lookup_failed).
Proof.
  intros Hkind Hnull Hzero path call. unfold call.
  rewrite (lookup_ioc_relationships_explicit _ _ _ _ _ _ Hkind Hnull Hzero).
  rewrite page_relationships_state. fold path.
  split; [by rewrite <- (since_extend self [_; _])|]. split; [done|].
  destruct (parsed_listing api_iterator self path limit) as [[|frame frames]|e] eqn:Hlist.
  - rewrite (page_relationships_empty _ _ _ _ _ _ Hlist). by split.
  - unfold parsed_listing in Hlist.
    destruct (api_iterator self path 40 limit) as [objects|] eqn:Hit; [|done].
    simpl in Hlist.
    assert (Hframes : Forall (fun df => index df = [ColumnNames.ID]
                                        ∧ ColumnNames.ID ∉ columns df) (frame :: frames)).
    { apply omapM_Return in Hlist. rewrite Forall_forall. intros df Hdf.
      apply list_elem_of_lookup in Hdf as [i Hi].
      destruct (Forall2_lookup_r _ _ _ _ _ Hlist Hi) as (o & _ & Hparse).
      by destruct (_parse_vt_object_frame _ _ Hparse) as (? & ? & _). }
    destruct (page_relationships_frames observable vt_type t relationship (endpoint t)
                limit self frame frames Hkind) as [cols ->]; [|done|by split].
    unfold parsed_listing. fold path. by rewrite Hit.
  - rewrite (page_relationships_fails _ _ _ _ _ _ _ Hlist). split; [done|].
    by intros e' [= <-].
Qed.

(** X9. Without a limit, the count the server reports for the
    relationship becomes the limit of the paging request: the metadata
    fetch at [/endpoint/observable?relationship_counters=true] is followed
    by one paging request with that count, and by the close. *)
Theorem lookup_ioc_relationships_counted_limit observable vt_type t relationship self
        response rels entry meta count :
  VTEntityType_call (inl vt_type) = Return t →
  api_get_object self (counters_path t observable) = Return response →
  obj_relationships response = Some rels →
  dict_get relationship rels = Some entry →
  py_getitem entry "meta" = Return meta →
  py_getitem meta "count" = Return (JInt count) →
  count ≠ 0 →
  let call := lookup_ioc_relationships api_get_object api_iterator
                observable vt_type relationship JNull self in
  since self call.2
  = [EvGetObject (closed self) (counters_path t observable);
     EvIterator (closed self)
                (relationships_path (endpoint t) observable relationship) 40 (JInt count);
     EvClose]
  ∧ closed call.2 = true.
Proof.
  intros Hkind Hfetch Hrels Hentry Hmeta Hcount Hzero call. unfold call.
  rewrite (lookup_ioc_relationships_counted _ _ _ _ _ _ _ _ _ (JInt count)
             Hkind Hfetch Hrels Hentry Hmeta Hcount) by congruence.
  rewrite page_relationships_state. split; [|done].
  unfold since, after_paging, extend. simpl.
  by rewrite <- app_assoc, drop_app_length.
Qed.

(** X21. Without a limit, a relationship the server counts at zero
    gives the empty frame after the metadata fetch alone: there is no
    paging request and no close either, so the connection is left as it
    was. *)
Theorem lookup_ioc_relationships_counted_zero observable vt_type t relationship self
        response rels entry meta :
  VTEntityType_call (inl vt_type) = Return t →
  api_get_object self (counters_path t observable) = Return response →
  obj_relationships response = Some rels →
  dict_get relationship rels = Some entry →
  py_getitem entry "meta" = Return meta →
  py_getitem meta "count" = Return (JInt 0) →
  lookup_ioc_relationships api_get_object api_iterator
    observable vt_type relationship JNull self
  = (Return pd.DataFrame_,
     extend self [EvGetObject (closed self) (counters_path t observable)]).
Proof.
  intros Hkind Hfetch Hrels Hentry Hmeta Hcount.
  unfold lookup_ioc_relationships, bind, lift. rewrite Hkind.
  rewrite bool_decide_eq_false_2 by (intros Hn; apply Hn, all_members_supported).
  rewrite (_get_endpoint_name_value _ _ Hkind).
  unfold resolve_limit, bind, lift. rewrite Hkind, _get_endpoint_name_member.
  unfold try_except, bind, get_object, lift. fold (counters_path t observable).
  rewrite Hfetch. unfold relationships. rewrite Hrels.
  rewrite bool_decide_eq_true_2 by (by rewrite Hentry).
  unfold py_getitem at 1. rewrite Hentry. unfold obind. rewrite Hmeta, Hcount.
  reflexivity.
Qed.

(** X10. A listing without objects gives [pd.DataFrame()]: a frame with
    no rows, no columns and no [(source, target)] index. *)
Theorem lookup_ioc_relationships_no_objects observable vt_type t relationship limit self :
  VTEntityType_call (inl vt_type) = Return t →
  limit ≠ JNull → limit ≠ JInt 0 →
  api_iterator self (relationships_path (endpoint t) observable relationship) 40 limit
  = Return [] →
  (lookup_ioc_relationships api_get_object api_iterator
     observable vt_type relationship limit self).1
  = Return pd.DataFrame_.
Proof.
  intros Hkind Hnull Hzero Hit.
  rewrite (lookup_ioc_relationships_explicit _ _ _ _ _ _ Hkind Hnull Hzero).
  apply page_relationships_empty. unfold parsed_listing. by rewrite Hit.
Qed.

(** X11. A listing of objects that all parse gives one row per object,
    in listing order, indexed by [(source, target)]: the source is the
    observable, the source type the kind, the relationship the one asked
    for, and the target and its type are the identifier and the type of
    the object. *)
Theorem lookup_ioc_relationships_edges observable vt_type t relationship limit self
        object objects frames :
  VTEntityType_call (inl vt_type) = Return t →
  limit ≠ JNull → limit ≠ JInt 0 →
  api_iterator self (relationships_path (endpoint t) observable relationship) 40 limit
  = Return (object :: objects) →
  omapM _parse_vt_object (object :: objects) = Return frames →
  ∃ df,
    (lookup_ioc_relationships api_get_object api_iterator
       observable vt_type relationship limit self).1 = Return df
    ∧ index df = [ColumnNames.SOURCE; ColumnNames.TARGET]
    ∧ Forall2 (fun o row =>
                 row !! ColumnNames.SOURCE = Some observable
                 ∧ row !! ColumnNames.SOURCE_TYPE = Some (VStr (VTEntityType_value t))
                 ∧ row !! ColumnNames.RELATIONSHIP_TYPE = Some (VStr relationship)
                 ∧ row !! ColumnNames.TARGET = Some (VStr (obj_id o))
                 ∧ row !! ColumnNames.TARGET_TYPE = Some (VStr (obj_type o)))
              (object :: objects) (rows df).
Proof.
  intros Hkind Hnull Hzero Hit Hparse.
  rewrite (lookup_ioc_relationships_explicit _ _ _ _ _ _ Hkind Hnull Hzero).
  pose proof (omapM_Return _ _ _ Hparse) as Hall.
  destruct frames as [|frame frames]; [by inversion Hall|].
  assert (Hframes : Forall (fun df => index df = [ColumnNames.ID]
                                      ∧ ColumnNames.ID ∉ columns df) (frame :: frames)).
  { rewrite Forall_forall. intros df Hdf.
    apply list_elem_of_lookup in Hdf as [i Hi].
    destruct (Forall2_lookup_r _ _ _ _ _ Hall Hi) as (o & _ & Ho).
    by destruct (_parse_vt_object_frame _ _ Ho) as (? & ? & _). }
  destruct (page_relationships_frames observable vt_type t relationship (endpoint t)
              limit self frame frames Hkind) as [cols ->]; [|done|].
  { unfold parsed_listing. by rewrite Hit. }
  eexists. split; [reflexivity|]. split; [done|]. cbn [rows].
  clear Hit Hparse Hframes.
  induction Hall as [|o df os dfs Ho _ IH]; [constructor|].
  destruct (_parse_vt_object_frame _ _ Ho) as (_ & _ & row & Hrow & _).
  cbn [map concat]. rewrite Hrow. cbn [app map]. constructor; [|exact IH].
  by apply (edge_row_cells o df row).
Qed.

End Paging.

(** ** Further properties: batches *)

Section Batches.

Variable api_get_object : VTLookupV3 → string → outcome VTObject.
Variable api_iterator : VTLookupV3 → string → Z → json → outcome (list VTObject).

(** X7. A lookup with a supported kind issues one fetch, at
    [/endpoint/observable], and one close, whatever the answer.  It
    returns the parsed record when the fetch and the parsing both go
    through, and raises the generic exception otherwise; the cause of
    the failure is not kept. *)
Theorem lookup_ioc_one_fetch observable vt_type t self :
  VTEntityType_call (inl vt_type) = Return t →
  let path := object_path t observable in
  let call := lookup_ioc api_get_object observable vt_type self in
  since self call.2 = [EvGetObject (closed self) path; EvClose]
  ∧ _vt_key call.2 = _vt_key self
  ∧ call.1 = match (let? response := api_get_object self path in
                    _parse_vt_object response) with
             | Return df => Return df
             | Raise _ => Raise lookup_failed
             end.
Proof.
  intros Hkind path call. unfold call.
  rewrite (lookup_ioc_fetch _ _ _ _ _ Hkind). fold path. cbn [fst snd].
  split; [|split; [done|]].
  - unfold since, after_fetch. simpl. by rewrite drop_app_length.
  - by destruct (api_get_object self path).
Qed.

Lemma lookup_iocs_loop observables_df _observables_df
      observable_column observable_type_column self :
  pd.reset_index observables_df = Return _observables_df →
  observable_column ∈ columns _observables_df →
  observable_type_column ∈ columns _observables_df →
  lookup_iocs api_get_object observables_df observable_column observable_type_column self
  = (let (r, self') :=
       mapM (lookup_or_stub api_get_object)
            (items_of _observables_df observable_column observable_type_column) self in
     (match r with
      | Return dfs =>
          if bool_decide (0 < length dfs)%nat then pd.concat dfs else Return pd.DataFrame_
      | Raise e => Raise e
      end, self')).
Proof.
  intros Hreset Hvalue Hkind.
  unfold lookup_iocs, bind, lift. rewrite Hreset.
  unfold check_columns. simpl. unfold bind.
  rewrite !bool_decide_eq_false_2 by (intros Hn; by apply Hn).
  cbv beta iota delta [ret]. fold (items_of _observables_df observable_column
                                           observable_type_column).
  destruct (mapM _ _ self) as [[dfs|e] self']; [|done]. by case_bool_decide.
Qed.

(** X12. On a table without rows that carries the two columns,
    [lookup_iocs] returns [pd.DataFrame()] and does nothing else. *)
Theorem lookup_iocs_no_rows observables_df _observables_df
        observable_column observable_type_column self :
  pd.reset_index observables_df = Return _observables_df →
  observable_column ∈ columns _observables_df →
  observable_type_column ∈ columns _observables_df →
  rows observables_df = [] →
  lookup_iocs api_get_object observables_df observable_column observable_type_column self
  = (Return pd.DataFrame_, self).
Proof.
  intros Hreset Hvalue Hkind Hrows.
  rewrite (lookup_iocs_loop _ _ _ _ _ Hreset Hvalue Hkind).
  pose proof (reset_index_rows _ _ Hreset) as Hlen. rewrite Hrows in Hlen.
  unfold items_of. destruct (rows _observables_df); [reflexivity | discriminate].
Qed.

Lemma fetched_paths_app evs1 evs2 :
  fetched_paths (evs1 ++ evs2) = fetched_paths evs1 ++ fetched_paths evs2.
Proof. unfold fetched_paths. by rewrite flat_map_app. Qed.

Lemma closes_app evs1 evs2 : closes (evs1 ++ evs2) = (closes evs1 + closes evs2)%nat.
Proof. unfold closes. by rewrite flat_map_app, length_app. Qed.

Lemma lookup_or_stub_events item self :
  ∃ evs,
    trace (lookup_or_stub api_get_object item self).2 = trace self ++ evs
    ∧ fetched_paths evs = item_paths item
    ∧ closes evs = length (item_paths item).
Proof.
  destruct item as [observable observable_type].
  unfold lookup_or_stub, try_except, item_paths. cbn [fst snd].
  pose proof (lookup_ioc_state api_get_object observable observable_type self) as Hstate.
  destruct (VTEntityType_call (inl observable_type)) as [t|e].
  - destruct (lookup_ioc api_get_object observable observable_type self)
      as [[df|e] self1]; simpl in Hstate; subst self1; simpl.
    + by eexists [_; _].
    + rewrite <- app_assoc. by eexists [_; _; _].
  - rewrite Hstate. simpl. by eexists [_].
Qed.

Lemma lookup_or_stub_all_events items : ∀ self,
  ∃ evs,
    trace (mapM (lookup_or_stub api_get_object) items self).2 = trace self ++ evs
    ∧ fetched_paths evs = flat_map item_paths items
    ∧ closes evs = length (flat_map item_paths items).
Proof.
  induction items as [|item items IH]; intros self.
  - exists []. simpl. by rewrite app_nil_r.
  - destruct (lookup_or_stub_events item self) as (evs1 & Htrace1 & Hpaths1 & Hcloses1).
    destruct (lookup_or_stub_row api_get_object item self)
      as (df & self1 & row & Hstep & _).
    rewrite Hstep in Htrace1. simpl in Htrace1.
    destruct (IH self1) as (evs2 & Htrace2 & Hpaths2 & Hcloses2).
    exists (evs1 ++ evs2). cbn [mapM]. unfold bind at 1. rewrite Hstep.
    rewrite snd_bind_pure by auto with pure.
    rewrite Htrace2, Htrace1, app_assoc, fetched_paths_app, closes_app.
    cbn [flat_map]. rewrite length_app. by rewrite Hpaths1, Hpaths2, Hcloses1, Hcloses2.
Qed.

(** X13. [lookup_iocs] fetches one object for each row whose kind is
    supported, in row order and at [/endpoint/observable], and nothing
    for the other rows: a row with an unknown kind becomes a stub
    without any call.  Every fetch is followed by a close. *)
Theorem lookup_iocs_fetches observables_df _observables_df
        observable_column observable_type_column self :
  pd.reset_index observables_df = Return _observables_df →
  observable_column ∈ columns _observables_df →
  observable_type_column ∈ columns _observables_df →
  let items := items_of _observables_df observable_column observable_type_column in
  let self' := (lookup_iocs api_get_object observables_df
                  observable_column observable_type_column self).2 in
  fetched_paths (since self self') = flat_map item_paths items
  ∧ closes (since self self') = length (flat_map item_paths items).
Proof.
  intros Hreset Hvalue Hkind items self'. unfold self'.
  rewrite (lookup_iocs_loop _ _ _ _ _ Hreset Hvalue Hkind). fold items.
  destruct (lookup_or_stub_all_events items self) as (evs & Htrace & Hpaths & Hcloses).
  destruct (mapM _ items self) as [r self1]. cbn [snd] in *.
  unfold since. by rewrite Htrace, drop_app_length.
Qed.

Lemma lookup_or_stub_frame item self df self' :
  lookup_or_stub api_get_object item self = (Return df, self') →
  index df = [ColumnNames.ID]
  ∧ ∃ row, rows df = [row]
           ∧ is_Some (row !! ColumnNames.ID) ∧ is_Some (row !! ColumnNames.TYPE).
Proof.
  destruct item as [observable observable_type]. unfold lookup_or_stub, try_except.
  destruct (lookup_ioc api_get_object observable observable_type self)
    as [[record|e] self1] eqn:Hcall.
  - intros [= <- <-].
    destruct (VTEntityType_call (inl observable_type)) as [t|e] eqn:Hkind.
    + rewrite (lookup_ioc_fetch _ _ _ _ _ Hkind) in Hcall.
      destruct (api_get_object self _) as [response|]; [|discriminate].
      destruct (_parse_vt_object response) as [df'|] eqn:Hparse; [|discriminate].
      injection Hcall as <- _.
      destruct (_parse_vt_object_frame _ _ Hparse) as (? & _ & row & ? & ? & ?).
      split; [done|]. exists row. eauto.
    + by rewrite (lookup_ioc_rejected _ _ _ _ _ Hkind) in Hcall.
  - unfold bind, print, emit, lift. rewrite stub_frame. intros [= <- <-].
    split; [done|]. eexists. split; [reflexivity|]. unfold stub_row. simpl.
    split; [by rewrite lookup_insert_eq | by rewrite lookup_insert_ne, lookup_insert_eq].
Qed.

Lemma concat_index (df : DataFrame) (dfs : list DataFrame) (names : list string) frame :
  Forall (fun d => index d = names) (df :: dfs) →
  pd.concat (df :: dfs) = Return frame → index frame = names.
Proof.
  intros Hall. rewrite concat_rows. intros [= <-]. simpl.
  apply common_index_all; [apply kept_cons | by apply kept_Forall].
Qed.

(** X14. On a table with at least one row, the result of [lookup_iocs]
    is indexed by [id], and each of its rows has its [id] and [type]
    cells, whether it is a record or a stub. *)
Theorem lookup_iocs_keyed_by_id observables_df _observables_df
        observable_column observable_type_column self :
  pd.reset_index observables_df = Return _observables_df →
  observable_column ∈ columns _observables_df →
  observable_type_column ∈ columns _observables_df →
  rows observables_df ≠ [] →
  ∃ df,
    (lookup_iocs api_get_object observables_df
       observable_column observable_type_column self).1 = Return df
    ∧ index df = [ColumnNames.ID]
    ∧ Forall (fun row => is_Some (row !! ColumnNames.ID)
                         ∧ is_Some (row !! ColumnNames.TYPE)) (rows df).
Proof.
  intros Hreset Hvalue Hkind Hrows.
  rewrite (lookup_iocs_loop _ _ _ _ _ Hreset Hvalue Hkind).
  set (items := items_of _ _ _).
  assert (Hitems : items ≠ []).
  { unfold items, items_of. pose proof (reset_index_rows _ _ Hreset) as Hlen.
    destruct (rows _observables_df); [|done].
    destruct (rows observables_df); [done | discriminate]. }
  assert (Hall : ∀ l self0, ∃ dfs self1,
            mapM (lookup_or_stub api_get_object) l self0 = (Return dfs, self1)
            ∧ length dfs = length l
            ∧ Forall (fun d => index d = [ColumnNames.ID]) dfs
            ∧ Forall (fun row => is_Some (row !! ColumnNames.ID)
                                 ∧ is_Some (row !! ColumnNames.TYPE))
                     (concat (map rows dfs))).
  { induction l as [|item l IH]; intros self0.
    - exists [], self0. repeat split; constructor.
    - destruct (lookup_or_stub_row api_get_object item self0)
        as (d & self1 & row & Hstep & _).
      destruct (lookup_or_stub_frame _ _ _ _ Hstep) as (Hi & row' & Hrow & Hcells).
      destruct (IH self1) as (dfs & self2 & Hrest & Hlen & Hidx & Hcs).
      exists (d :: dfs), self2. cbn [mapM]. unfold bind. rewrite Hstep, Hrest.
      split; [done|]. split; [simpl; by rewrite Hlen|]. split; [by constructor|].
      cbn [map concat]. rewrite Hrow. by constructor. }
  destruct (Hall items self) as (dfs & self1 & -> & Hlen & Hidx & Hcells).
  destruct dfs as [|d dfs]; [destruct items; done|].
  rewrite bool_decide_eq_true_2 by (simpl; lia).
  destruct (pd.concat (d :: dfs)) as [frame|] eqn:Hconcat; [|by rewrite concat_rows in Hconcat].
  exists frame. split; [done|]. split; [by apply (concat_index d dfs)|].
  rewrite concat_rows in Hconcat. by injection Hconcat as <-.
Qed.

End Batches.

Section RelationshipBatches.

Variable api_get_object : VTLookupV3 → string → outcome VTObject.
Variable api_iterator : VTLookupV3 → string → Z → json → outcome (list VTObject).

(** X15. [lookup_iocs_relationships] checks the two columns before its
    loop: when the table, once its index is reset, lacks one of them, it
    raises [KeyError] and the client is untouched. *)
Theorem lookup_iocs_relationships_missing_column observables_df _observables_df
        relationship observable_column observable_type_column limit self :
  pd.reset_index observables_df = Return _observables_df →
  observable_column ∉ columns _observables_df
  ∨ observable_type_column ∉ columns _observables_df →
  ∃ column,
    (column = observable_column ∨ column = observable_type_column)
    ∧ lookup_iocs_relationships api_get_object api_iterator observables_df relationship
        observable_column observable_type_column limit self
      = (Raise (KeyError ("Column " +:+ column +:+ " not found in observables df")), self).
Proof.
  intros Hreset Hmissing.
  unfold lookup_iocs_relationships, bind, lift. rewrite Hreset.
  unfold check_columns. simpl. unfold bind.
  destruct (decide (observable_column ∈ columns _observables_df)) as [Hin|Hout].
  - destruct Hmissing as [?|Hty]; [done|].
    exists observable_type_column. split; [by right|].
    rewrite (bool_decide_eq_false_2 (observable_column ∉ _)) by (intros Hn; by apply Hn).
    unfold ret at 1. rewrite bool_decide_eq_true_2 by done. reflexivity.
  - exists observable_column. split; [by left|].
    rewrite bool_decide_eq_true_2 by done. reflexivity.
Qed.

Lemma relationships_or_stub_rows relationship limit item self :
  ∃ df self',
    relationships_or_stub api_get_object api_iterator relationship limit item self
    = (Return df, self')
    ∧ rows df
      = edge_rows item (lookup_ioc_relationships api_get_object api_iterator
                          item.1 item.2 relationship limit self).1.
Proof.
  destruct item as [observable observable_type].
  unfold relationships_or_stub, try_except. cbn [fst snd].
  destruct (lookup_ioc_relationships _ _ observable observable_type relationship limit self)
    as [[df|e] self1].
  - by exists df, self1.
  - unfold bind, print, emit, lift. rewrite stub_frame. by eexists _, _.
Qed.

(** X16. On a table that carries the two columns,
    [lookup_iocs_relationships] does not raise: its rows are, item after
    item in row order, the rows of the frame the item's lookup returned,
    or the item's stub when that lookup raised (also for a kind that is
    not supported). *)
Theorem lookup_iocs_relationships_rows observables_df _observables_df
        relationship observable_column observable_type_column limit self :
  pd.reset_index observables_df = Return _observables_df →
  observable_column ∈ columns _observables_df →
  observable_type_column ∈ columns _observables_df →
  let items := items_of _observables_df observable_column observable_type_column in
  ∃ df results,
    (lookup_iocs_relationships api_get_object api_iterator observables_df relationship
       observable_column observable_type_column limit self).1 = Return df
    ∧ Forall2 (fun item result =>
                 ∃ self0, result = (lookup_ioc_relationships api_get_object api_iterator
                                      item.1 item.2 relationship limit self0).1)
              items results
    ∧ rows df = concat (zip_with edge_rows items results).
Proof.
  intros Hreset Hvalue Hkind items.
  unfold lookup_iocs_relationships, bind, lift. rewrite Hreset.
  unfold check_columns. simpl. unfold bind.
  rewrite !bool_decide_eq_false_2 by (intros Hn; by apply Hn).
  cbv beta iota delta [ret]. fold (items_of _observables_df observable_column
                                           observable_type_column). fold items.
  assert (Hall : ∀ l self0, ∃ dfs self1 results,
            mapM (relationships_or_stub api_get_object api_iterator relationship limit)
                 l self0 = (Return dfs, self1)
            ∧ length dfs = length l
            ∧ Forall2 (fun item result =>
                         ∃ s, result = (lookup_ioc_relationships api_get_object
                                          api_iterator item.1 item.2 relationship
                                          limit s).1) l results
            ∧ concat (map rows dfs) = concat (zip_with edge_rows l results)).
  { induction l as [|item l IH]; intros self0.
    - exists [], self0, []. repeat split; constructor.
    - destruct (relationships_or_stub_rows relationship limit item self0)
        as (d & self1 & Hstep & Hrows).
      destruct (IH self1) as (dfs & self2 & results & Hrest & Hlen & Hout & Hcat).
      eexists (d :: dfs), self2, (_ :: results). cbn [mapM]. unfold bind.
      rewrite Hstep, Hrest. split; [done|]. split; [simpl; by rewrite Hlen|].
      split; [constructor; [by exists self0 | done]|].
      cbn [map concat zip_with]. by rewrite Hrows, Hcat. }
  destruct (Hall items self) as (dfs & self1 & results & -> & Hlen & Hout & Hcat).
  destruct dfs as [|d dfs].
  - exists pd.DataFrame_, results. simpl in *. by rewrite <- Hcat.
  - rewrite bool_decide_eq_true_2 by (simpl; lia). rewrite concat_rows.
    eexists _, results. simpl in *. by rewrite <- Hcat.
Qed.

End RelationshipBatches.

(** ** Further properties: graph assembly *)

Lemma links_app evs1 evs2 : links (evs1 ++ evs2) = links evs1 ++ links evs2.
Proof. unfold links. by rewrite flat_map_app. Qed.

Lemma links_nodes rs : links (map node_event rs) = [].
Proof. by induction rs. Qed.

Lemma links_links rs : links (map link_event rs) = map edge_of rs.
Proof. induction rs as [|r rs IH]; simpl; [done | by rewrite <- IH]. Qed.

Lemma edge_of_cells (rs rs' : list (gmap string value)) :
  (∀ c, c ≠ "index" → c ≠ "level_0" → map (pd.cell c) rs' = map (pd.cell c) rs) →
  map edge_of rs' = map edge_of rs.
Proof.
  intros Hcells.
  pose proof (Hcells ColumnNames.SOURCE ltac:(done) ltac:(done)) as Hs.
  pose proof (Hcells ColumnNames.TARGET ltac:(done) ltac:(done)) as Ht.
  pose proof (Hcells ColumnNames.RELATIONSHIP_TYPE ltac:(done) ltac:(done)) as Hr.
  clear Hcells. revert rs' Hs Ht Hr.
  induction rs as [|r rs IH]; intros [|r' rs'] Hs Ht Hr; try done.
  simpl in *. injection Hs as Hs1 Hs. injection Ht as Ht1 Ht. injection Hr as Hr1 Hr.
  unfold edge_of at 1 3. rewrite Hs1, Ht1, Hr1. f_equal. by apply IH.
Qed.

Section GraphCalls.

Variable api_graph_call : VTLookupV3 → Event → outcome unit.
Variable api_graph_id : VTLookupV3 → string.

(** What a call of [create_vt_graph] that returns has done. *)
Lemma create_vt_graph_trace relationship_dfs name private self graph_id self' :
  create_vt_graph api_graph_call api_graph_id relationship_dfs name private self
  = (Return graph_id, self') →
  ∃ concatenated_df nodes,
    (let? c := pd.concat relationship_dfs in pd.reset_index c) = Return concatenated_df
    ∧ self' = extend self ([EvGraph (_vt_key self) name private]
                           ++ map node_event nodes
                           ++ map link_event (rows concatenated_df)
                           ++ [EvSaveGraph])
    ∧ graph_id = api_graph_id self'.
Proof.
  unfold create_vt_graph.
  case_bool_decide as Hlen; [discriminate|]. intros H.
  apply bind_Return in H as (concatenated_df & s & Hconcat & H).
  apply bind_Return in H as (sources_df & s1 & Hsources & H).
  apply bind_Return in H as (target_df & s2 & Htargets & H).
  apply bind_Return in H as (nodes_df & s3 & Hnodes & H).
  apply bind_Return in H as (vt_key & s4 & Hkey & H).
  apply bind_Return in H as (u1 & s5 & Hgraph & H).
  apply bind_Return in H as (u2 & s6 & Hadd & H).
  apply bind_Return in H as (u3 & s7 & Hlinks & H).
  apply bind_Return in H as (u4 & s8 & Hsave & H).
  unfold lift in *. rewrite graph_call_run in Hgraph, Hsave.
  injection Hconcat as Hconcat <-. injection Hsources as Hsources <-.
  injection Htargets as Htargets <-. injection Hnodes as Hnodes <-.
  injection Hkey as <- <-. injection Hgraph as _ <-.
  injection Hsave as _ <-. injection H as <- <-.
  apply add_node_all in Hadd. subst s6.
  apply add_link_all in Hlinks. subst s7.
  exists concatenated_df, (rows nodes_df).
  split; [done|]. split; [|done].
  unfold extend. simpl. by rewrite <- !app_assoc.
Qed.


Lemma nodes_of_outcome key col df :
  (key, col) = (ColumnNames.SOURCE, ColumnNames.SOURCE_TYPE)
  ∨ (key, col) = (ColumnNames.TARGET, ColumnNames.TARGET_TYPE) →
  (key ∈ columns df ∧ col ∈ columns df → ∃ nodes, nodes_of key col df = Return nodes)
  ∧ (¬ (key ∈ columns df ∧ col ∈ columns df) →
     ∃ msg, nodes_of key col df = Raise (KeyError msg)).
Proof.
  intros Hside. unfold nodes_of, pd.groupby_first. split; intros Hboth.
  - destruct Hboth as [Hk Hc].
    do 2 (case_bool_decide; [done|]).
    destruct Hside as [[= -> ->]|[= -> ->]]; by eexists.
  - case_bool_decide as Hk; [by eexists|].
    case_bool_decide as Hc; [by eexists|].
    exfalso. by apply Hboth.
Qed.

(** X17. [create_vt_graph] validates its input before it contacts the
    graph service: with no table it raises [ValueError], and with tables
    that, put together, lack one of the columns [source],
    [source_type], [target], [target_type] (as tables that hold stubs
    only do) it raises [KeyError]; in both cases nothing has been
    called. *)
Theorem create_vt_graph_rejects name private self :
  create_vt_graph api_graph_call api_graph_id [] name private self
  = (Raise (ValueError "There are no relationship DataFrames"), self)
  ∧ ∀ relationship_dfs concatenated_df,
      (let? c := pd.concat relationship_dfs in pd.reset_index c) = Return concatenated_df →
      ¬ Forall (fun c => c ∈ columns concatenated_df)
               [ColumnNames.SOURCE; ColumnNames.SOURCE_TYPE;
                ColumnNames.TARGET; ColumnNames.TARGET_TYPE] →
      ∃ msg, create_vt_graph api_graph_call api_graph_id relationship_dfs name private self
             = (Raise (KeyError msg), self).
Proof.
  split; [reflexivity|].
  intros relationship_dfs concatenated_df Hc Hmissing.
  unfold create_vt_graph.
  destruct relationship_dfs as [|df dfs]; [discriminate|].
  rewrite bool_decide_eq_false_2 by done.
  unfold bind at 1, lift at 1. rewrite Hc.
  pose proof (nodes_of_outcome ColumnNames.SOURCE ColumnNames.SOURCE_TYPE concatenated_df
                (or_introl eq_refl)) as Hsources.
  pose proof (nodes_of_outcome ColumnNames.TARGET ColumnNames.TARGET_TYPE concatenated_df
                (or_intror eq_refl)) as Htargets.
  destruct Hsources as [Hs Hns], Htargets as [Ht Hnt].
  unfold bind at 1, lift at 1.
  destruct (decide (ColumnNames.SOURCE ∈ columns concatenated_df
                    ∧ ColumnNames.SOURCE_TYPE ∈ columns concatenated_df)) as [Hsc|Hsc];
    [destruct (Hs Hsc) as [x ->] | destruct (Hns Hsc) as [x ->]; by eexists].
  unfold bind at 1, lift at 1.
  destruct (decide (ColumnNames.TARGET ∈ columns concatenated_df
                    ∧ ColumnNames.TARGET_TYPE ∈ columns concatenated_df)) as [Htc|Htc];
    [destruct (Ht Htc) as [y ->] | destruct (Hnt Htc) as [y ->]; by eexists].
  exfalso. apply Hmissing. destruct Hsc, Htc. by repeat constructor.
Qed.

Lemma mapM_extend {A B} (f : A → M B) (P : Event → Prop) (l : list A) :
  (∀ a s, ∃ evs, (f a s).2 = extend s evs ∧ Forall P evs) →
  ∀ s, ∃ evs, (mapM f l s).2 = extend s evs ∧ Forall P evs.
Proof.
  intros Hf. induction l as [|a l IH]; intros s.
  - exists []. by rewrite extend_nil.
  - cbn [mapM]. unfold bind at 1.
    destruct (Hf a s) as (evs1 & Hs1 & Hp1).
    destruct (f a s) as [[b|e] s1]; simpl in Hs1; subst s1; [|by exists evs1].
    rewrite snd_bind_pure by auto with pure.
    destruct (IH (extend s evs1)) as (evs2 & -> & Hp2).
    exists (evs1 ++ evs2). rewrite extend_extend. split; [done | by apply Forall_app].
Qed.

Lemma add_node_state nodes_df row s :
  ∃ evs, (add_node api_graph_call nodes_df row s).2 = extend s evs
         ∧ Forall builds_graph evs.
Proof.
  unfold add_node, bind, lift, pd.row_getitem.
  repeat (case_bool_decide; [|exists []; by rewrite extend_nil]).
  eexists [_]. split; [reflexivity | by repeat constructor].
Qed.

Lemma add_link_state concatenated_df row s :
  ∃ evs, (add_link api_graph_call concatenated_df row s).2 = extend s evs
         ∧ Forall builds_graph evs.
Proof.
  unfold add_link, bind, lift, pd.row_getitem.
  repeat (case_bool_decide; [|exists []; by rewrite extend_nil]).
  eexists [_]. split; [reflexivity | by repeat constructor].
Qed.


Lemma add_node_returns nodes_df :
  (∀ s ev, api_graph_call s ev = Return tt) →
  ColumnNames.ID ∈ columns nodes_df →
  ColumnNames.TYPE ∈ columns nodes_df →
  ∀ rs self, ∃ units, mapM (add_node api_graph_call nodes_df) rs self
                      = (Return units, extend self (map node_event rs)).
Proof.
  intros Hok Hid Hty. induction rs as [|r rs IH]; intros self.
  - exists []. simpl. by rewrite extend_nil.
  - destruct (IH (extend self [node_event r])) as [units Hrest].
    assert (Hnode : add_node api_graph_call nodes_df r self
                    = (Return tt, extend self [node_event r])).
    { unfold add_node, bind, lift, pd.row_getitem.
      rewrite !bool_decide_eq_true_2 by done. by rewrite graph_call_run, Hok. }
    exists (tt :: units). cbn [mapM]. unfold bind. rewrite Hnode, Hrest.
    by rewrite extend_extend.
Qed.

Lemma add_link_returns concatenated_df :
  (∀ s ev, api_graph_call s ev = Return tt) →
  ColumnNames.SOURCE ∈ columns concatenated_df →
  ColumnNames.TARGET ∈ columns concatenated_df →
  ColumnNames.RELATIONSHIP_TYPE ∈ columns concatenated_df →
  ∀ rs self, ∃ units, mapM (add_link api_graph_call concatenated_df) rs self
                      = (Return units, extend self (map link_event rs)).
Proof.
  intros Hok Hs Ht Hr. induction rs as [|r rs IH]; intros self.
  - exists []. simpl. by rewrite extend_nil.
  - destruct (IH (extend self [link_event r])) as [units Hrest].
    assert (Hlink : add_link api_graph_call concatenated_df r self
                    = (Return tt, extend self [link_event r])).
    { unfold add_link, bind, lift, pd.row_getitem.
      rewrite !bool_decide_eq_true_2 by done. by rewrite graph_call_run, Hok. }
    exists (tt :: units). cbn [mapM]. unfold bind. rewrite Hlink, Hrest.
    by rewrite extend_extend.
Qed.

(** X22. [create_vt_graph] returns, with the identifier of the graph it
    has just saved, whenever the tables put together carry the five
    columns of an edge table and the graph service accepts every call. *)
Theorem create_vt_graph_returns relationship_dfs concatenated_df name private self :
  (∀ s ev, api_graph_call s ev = Return tt) →
  (let? c := pd.concat relationship_dfs in pd.reset_index c) = Return concatenated_df →
  Forall (fun c => c ∈ columns concatenated_df)
         [ColumnNames.SOURCE; ColumnNames.SOURCE_TYPE;
          ColumnNames.TARGET; ColumnNames.TARGET_TYPE;
          ColumnNames.RELATIONSHIP_TYPE] →
  ∃ self',
    create_vt_graph api_graph_call api_graph_id relationship_dfs name private self
    = (Return (api_graph_id self'), self')
    ∧ last (since self self') = Some EvSaveGraph.
Proof.
  intros Hok Hc Hcols.
  apply Forall_cons in Hcols as [Hs Hcols]. apply Forall_cons in Hcols as [Hst Hcols].
  apply Forall_cons in Hcols as [Ht Hcols]. apply Forall_cons in Hcols as [Htt Hcols].
  apply Forall_cons in Hcols as [Hr _].
  unfold create_vt_graph.
  destruct relationship_dfs as [|df dfs]; [discriminate|].
  rewrite bool_decide_eq_false_2 by done.
  unfold bind at 1, lift at 1. rewrite Hc.
  destruct (proj1 (nodes_of_outcome ColumnNames.SOURCE ColumnNames.SOURCE_TYPE
                     concatenated_df (or_introl eq_refl)) (conj Hs Hst))
    as [sources_df Hsources].
  destruct (proj1 (nodes_of_outcome ColumnNames.TARGET ColumnNames.TARGET_TYPE
                     concatenated_df (or_intror eq_refl)) (conj Ht Htt))
    as [target_df Htargets].
  unfold bind at 1, lift at 1. rewrite Hsources.
  unfold bind at 1, lift at 1. rewrite Htargets.
  pose proof (nodes_of_ids _ _ _ _ (or_introl eq_refl) Hsources) as [Hscols _].
  pose proof (nodes_of_ids _ _ _ _ (or_intror eq_refl) Htargets) as [Htcols _].
  unfold bind at 1, lift at 1. rewrite concat_rows.
  set (nodes_df := {| index := pd.common_index (pd.kept [sources_df; target_df]);
                      columns := pd.concat_columns [sources_df; target_df];
                      rows := concat (map rows [sources_df; target_df]) |}).
  assert (Hid : ColumnNames.ID ∈ columns nodes_df).
  { simpl. unfold pd.concat_columns. cbn [foldl]. rewrite Hscols, Htcols.
    vm_compute. repeat constructor. }
  assert (Hty : ColumnNames.TYPE ∈ columns nodes_df).
  { simpl. unfold pd.concat_columns. cbn [foldl]. rewrite Hscols, Htcols.
    vm_compute. repeat constructor. }
  unfold bind at 1 2, get_vt_key. rewrite graph_call_run, Hok.
  unfold bind at 1.
  destruct (add_node_returns nodes_df Hok Hid Hty (rows nodes_df)
              (extend self [EvGraph (_vt_key self) name private])) as [units ->].
  unfold bind at 1.
  destruct (add_link_returns concatenated_df Hok Hs Ht Hr (rows concatenated_df)
              (extend (extend self [EvGraph (_vt_key self) name private])
                      (map node_event (rows nodes_df)))) as [units' ->].
  unfold bind at 1. rewrite graph_call_run, Hok, !extend_extend.
  eexists. split; [reflexivity|].
  by rewrite since_extend, !app_assoc, last_snoc.
Qed.

Lemma filter_non_empty_idem (objs : list DataFrame) :
  List.filter pd.non_empty (List.filter pd.non_empty objs)
  = List.filter pd.non_empty objs.
Proof.
  induction objs as [|obj objs IH]; [done|]. simpl.
  destruct (pd.non_empty obj) eqn:Hobj; simpl; [|done].
  rewrite Hobj. by f_equal.
Qed.

(** X23. Tables without rows and columns, as the relationship lookups
    return when nothing is found, are ignored by [create_vt_graph] as
    soon as one table is not empty: the call is the one on the other
    tables. *)
Theorem create_vt_graph_skips_empty relationship_dfs name private self :
  List.filter pd.non_empty relationship_dfs ≠ [] →
  create_vt_graph api_graph_call api_graph_id relationship_dfs name private self
  = create_vt_graph api_graph_call api_graph_id
      (List.filter pd.non_empty relationship_dfs) name private self.
Proof.
  intros Hne.
  assert (Hconcat : pd.concat (List.filter pd.non_empty relationship_dfs)
                    = pd.concat relationship_dfs).
  { unfold pd.concat, pd.kept. rewrite filter_non_empty_idem.
    by destruct (List.filter pd.non_empty relationship_dfs). }
  unfold create_vt_graph. rewrite Hconcat.
  destruct relationship_dfs as [|df dfs]; [done|].
  rewrite !bool_decide_eq_false_2; [done| |done].
  by destruct (List.filter pd.non_empty (df :: dfs)).
Qed.

End GraphCalls.

(** ** Further concrete runs *)

Lemma VTEntityType_round_trip_witness :
  VTEntityType_call (inl (VStr "domain")) = Return DOMAIN.
Proof.
  apply (proj2 (VTEntityType_round_trip DOMAIN (VStr "domain"))). reflexivity.
Defined.

Lemma _get_endpoint_name_spec_witness :
  _get_endpoint_name (inl (VStr "ip_address")) = Return "ip_addresses"
  ∧ ∃ msg, _get_endpoint_name (inl (VStr "hash")) = Raise (ValueError msg).
Proof.
  split.
  - destruct (_get_endpoint_name_spec (VStr "ip_address")) as (Hmember & _ & _).
    apply (Hmember IP_ADDRESS). reflexivity.
  - destruct (_get_endpoint_name_spec (VStr "hash")) as (_ & Houtside & _).
    apply Houtside. intros t. destruct t; discriminate.
Defined.

Lemma _parse_vt_object_without_attributes_witness :
  _parse_vt_object Mock.domain_b = stub (VStr "b.example") (VStr "domain")
  ∧ (lookup_ioc (fun _ _ => Return Mock.domain_b) (VStr "a.example") (VStr "domain")
       Mock.client).1
    = Return {| index := ["id"]; columns := ["type"];
                rows := [stub_row (VStr "b.example", VStr "domain")] |}.
Proof.
  destruct (_parse_vt_object_without_attributes Mock.domain_b eq_refl) as [Hstub Hlookup].
  split; [exact Hstub|].
  apply (Hlookup (fun _ _ => Return Mock.domain_b) (VStr "a.example") (VStr "domain")
           DOMAIN Mock.client); reflexivity.
Defined.

Lemma _parse_vt_object_returns_iff_witness :
  is_Return (_parse_vt_object Mock.abc123) = true
  ∧ ¬ (obj_attributes Mock.example_org = None
       ∨ ∃ attributes t stats,
           obj_attributes Mock.example_org = Some attributes
           ∧ VTEntityType_of_string (obj_type Mock.example_org) = Some t
           ∧ dict_get VTObjectPorperties.LAST_ANALYSIS_STATS attributes = Some (JDict stats)
           ∧ is_Some (dict_get VTObjectPorperties.MALICIOUS stats)
           ∧ is_Return (py_sum (dict_values stats)) = true).
Proof.
  split.
  - apply (proj2 (_parse_vt_object_returns_iff Mock.abc123)
             [("type_description", JStr "PE32");
              ("size", JInt 1024);
              ("last_analysis_stats",
               JDict [("malicious", JInt 3); ("harmless", JInt 60)])]
             FILE [("malicious", JInt 3); ("harmless", JInt 60)]);
      [reflexivity | reflexivity | reflexivity | by eexists | repeat constructor].
  - intros H. apply (proj2 (proj1 (_parse_vt_object_returns_iff Mock.example_org))) in H.
    vm_compute in H. discriminate.
Defined.

Lemma _parse_vt_object_record_witness :
  ∃ df row,
    _parse_vt_object Mock.abc123 = Return df
    ∧ rows df = [row]
    ∧ row !! ColumnNames.ID = Some (VStr "abc123")
    ∧ row !! ColumnNames.DETECTIONS = Some (VInt 3)
    ∧ row !! ColumnNames.SCANS = Some (VInt 63).
Proof.
  destruct (_parse_vt_object Mock.abc123) as [df|] eqn:Hdf; [|by vm_compute in Hdf].
  destruct (_parse_vt_object_record Mock.abc123
              [("type_description", JStr "PE32");
               ("size", JInt 1024);
               ("last_analysis_stats",
                JDict [("malicious", JInt 3); ("harmless", JInt 60)])]
              df eq_refl Hdf)
    as (row & stats & detections & scans
        & _ & Hrows & Hid & _ & Hdet & Hscans & Hstats & Hmal & Hsum & _).
  vm_compute in Hstats. injection Hstats as <-.
  vm_compute in Hmal. injection Hmal as <-.
  vm_compute in Hsum. injection Hsum as <-.
  exists df, row. by repeat split.
Defined.

Lemma _parse_vt_object_columns_witness :
  ∃ df,
    _parse_vt_object Mock.abc123 = Return df
    ∧ ∀ c, c ∈ columns df →
           c ∈ [ColumnNames.DETECTIONS; ColumnNames.SCANS; ColumnNames.TYPE]
           ∨ allowed_label FILE c.
Proof.
  destruct (_parse_vt_object Mock.abc123) as [df|] eqn:Hdf; [|by vm_compute in Hdf].
  exists df. split; [done|].
  exact (_parse_vt_object_columns Mock.abc123
           [("type_description", JStr "PE32");
            ("size", JInt 1024);
            ("last_analysis_stats",
             JDict [("malicious", JInt 3); ("harmless", JInt 60)])]
           FILE df eq_refl eq_refl Hdf).
Defined.

Lemma lookup_ioc_one_fetch_witness :
  since Mock.client
        (lookup_ioc Mock.get_object (VStr "unknown") (VStr "file") Mock.client).2
  = [EvGetObject false "/files/unknown"; EvClose]
  ∧ (lookup_ioc Mock.get_object (VStr "unknown") (VStr "file") Mock.client).1
    = Raise lookup_failed.
Proof.
  destruct (lookup_ioc_one_fetch Mock.get_object (VStr "unknown") (VStr "file") FILE
              Mock.client eq_refl) as (Hsince & _ & Hcall).
  split; [exact Hsince | exact Hcall].
Defined.

Lemma lookup_ioc_relationships_with_limit_witness :
  since Mock.client
        (lookup_ioc_relationships Mock.get_object Mock.iterator
           (VStr "abc123") (VStr "file") "contacted_domains" (JInt 5) Mock.client).2
  = [EvIterator false "/files/abc123/relationships/contacted_domains" 40 (JInt 5);
     EvClose].
Proof.
  apply (lookup_ioc_relationships_with_limit Mock.get_object Mock.iterator
           (VStr "abc123") (VStr "file") FILE "contacted_domains" (JInt 5) Mock.client);
    [reflexivity | discriminate | discriminate].
Defined.

Lemma lookup_ioc_relationships_counted_limit_witness :
  since Mock.client
        (lookup_ioc_relationships Mock.get_object Mock.iterator
           (VStr "abc123") (VStr "file") "contacted_domains" JNull Mock.client).2
  = [EvGetObject false "/files/abc123?relationship_counters=true";
     EvIterator false "/files/abc123/relationships/contacted_domains" 40 (JInt 1);
     EvClose].
Proof.
  apply (lookup_ioc_relationships_counted_limit Mock.get_object Mock.iterator
           (VStr "abc123") (VStr "file") FILE "contacted_domains" Mock.client
           Mock.abc123
           [("contacted_domains", JDict [("meta", JDict [("count", JInt 1)])])]
           (JDict [("meta", JDict [("count", JInt 1)])])
           (JDict [("count", JInt 1)])
           1);
    first [reflexivity | discriminate].
Defined.

Lemma lookup_ioc_relationships_no_objects_witness :
  (lookup_ioc_relationships Mock.get_object (fun _ _ _ _ => Return [])
     (VStr "abc123") (VStr "file") "contacted_domains" (JInt 5) Mock.client).1
  = Return pd.DataFrame_.
Proof.
  apply (lookup_ioc_relationships_no_objects Mock.get_object (fun _ _ _ _ => Return [])
           (VStr "abc123") (VStr "file") FILE "contacted_domains" (JInt 5) Mock.client);
    first [reflexivity | discriminate].
Defined.

Lemma lookup_ioc_relationships_edges_witness :
  ∃ df row,
    (lookup_ioc_relationships Mock.get_object Mock.iterator
       (VStr "abc123") (VStr "file") "contacted_domains" (JInt 5) Mock.client).1
    = Return df
    ∧ rows df = [row]
    ∧ row !! ColumnNames.SOURCE = Some (VStr "abc123")
    ∧ row !! ColumnNames.TARGET = Some (VStr "b.example").
Proof.
  destruct (omapM _parse_vt_object [Mock.domain_b]) as [frames|] eqn:Hframes;
    [|by vm_compute in Hframes].
  destruct (lookup_ioc_relationships_edges Mock.get_object Mock.iterator
              (VStr "abc123") (VStr "file") FILE "contacted_domains" (JInt 5) Mock.client
              Mock.domain_b [] frames)
    as (df & Hdf & _ & Hrows);
    [reflexivity | discriminate | discriminate | reflexivity | exact Hframes |].
  destruct (rows df) as [|row [|row' rest]] eqn:Hr.
  - inversion Hrows.
  - exists df, row. inversion Hrows as [|? ? ? ? (Hs & _ & _ & Ht & _) _]; subst.
    by repeat split.
  - inversion Hrows as [|? ? ? ? _ Hrest]; subst. inversion Hrest.
Defined.

Lemma lookup_iocs_no_rows_witness :
  lookup_iocs Mock.get_object (Mock.indicators []) "target" "target_type" Mock.client
  = (Return pd.DataFrame_, Mock.client).
Proof.
  apply (lookup_iocs_no_rows Mock.get_object (Mock.indicators [])
           (Mock.reset (Mock.indicators [])) "target" "target_type" Mock.client).
  - vm_compute. reflexivity.
  - vm_compute. repeat constructor.
  - vm_compute. repeat constructor.
  - reflexivity.
Defined.

Lemma lookup_iocs_fetches_witness :
  fetched_paths
    (since Mock.client
       (lookup_iocs Mock.get_object
          (Mock.indicators [Mock.indicator "abc123" "file";
                            Mock.indicator "q" "hash";
                            Mock.indicator "example.org" "domain"])
          "target" "target_type" Mock.client).2)
  = ["/files/abc123"; "/domains/example.org"].
Proof.
  destruct (lookup_iocs_fetches Mock.get_object
              (Mock.indicators [Mock.indicator "abc123" "file";
                                Mock.indicator "q" "hash";
                                Mock.indicator "example.org" "domain"])
              (Mock.reset (Mock.indicators [Mock.indicator "abc123" "file";
                                            Mock.indicator "q" "hash";
                                            Mock.indicator "example.org" "domain"]))
              "target" "target_type" Mock.client)
    as (Hpaths & _).
  - vm_compute. reflexivity.
  - vm_compute. repeat constructor.
  - vm_compute. repeat constructor.
  - rewrite Hpaths. vm_compute. reflexivity.
Defined.

Lemma lookup_iocs_keyed_by_id_witness :
  ∃ df,
    (lookup_iocs Mock.get_object
       (Mock.indicators [Mock.indicator "abc123" "file"; Mock.indicator "q" "hash"])
       "target" "target_type" Mock.client).1 = Return df
    ∧ index df = [ColumnNames.ID].
Proof.
  destruct (lookup_iocs_keyed_by_id Mock.get_object
              (Mock.indicators [Mock.indicator "abc123" "file"; Mock.indicator "q" "hash"])
              (Mock.reset (Mock.indicators [Mock.indicator "abc123" "file";
                                            Mock.indicator "q" "hash"]))
              "target" "target_type" Mock.client)
    as (df & Hdf & Hindex & _).
  - vm_compute. reflexivity.
  - vm_compute. repeat constructor.
  - vm_compute. repeat constructor.
  - discriminate.
  - exists df. split; [exact Hdf | exact Hindex].
Defined.

Lemma lookup_iocs_relationships_missing_column_witness :
  lookup_iocs_relationships Mock.get_object Mock.iterator Mock.values_only
    "contacted_domains" "target" "target_type" JNull Mock.client
  = (Raise (KeyError "Column target_type not found in observables df"), Mock.client).
Proof.
  destruct (lookup_iocs_relationships_missing_column Mock.get_object Mock.iterator
              Mock.values_only (Mock.reset Mock.values_only)
              "contacted_domains" "target" "target_type" JNull Mock.client)
    as (column & [Hcol|Hcol] & Hraise).
  - vm_compute. reflexivity.
  - right. vm_compute. intros Hin.
    repeat (apply elem_of_cons in Hin as [Hin|Hin]; [discriminate|]).
    by apply elem_of_nil in Hin.
  - vm_compute. reflexivity.
  - rewrite Hraise, Hcol. reflexivity.
Defined.

Lemma lookup_iocs_relationships_rows_witness :
  ∃ df,
    (lookup_iocs_relationships Mock.get_object Mock.iterator
       (Mock.indicators [Mock.indicator "abc123" "file"; Mock.indicator "q" "hash"])
       "contacted_domains" "target" "target_type" (JInt 5) Mock.client).1 = Return df.
Proof.
  destruct (lookup_iocs_relationships_rows Mock.get_object Mock.iterator
              (Mock.indicators [Mock.indicator "abc123" "file"; Mock.indicator "q" "hash"])
              (Mock.reset (Mock.indicators [Mock.indicator "abc123" "file";
                                            Mock.indicator "q" "hash"]))
              "contacted_domains" "target" "target_type" (JInt 5) Mock.client)
    as (df & results & Hdf & _).
  - vm_compute. reflexivity.
  - vm_compute. repeat constructor.
  - vm_compute. repeat constructor.
  - exists df. exact Hdf.
Defined.

Lemma create_vt_graph_rejects_witness :
  ∃ msg,
    create_vt_graph Mock.graph_call Mock.graph_id
      [Mock.indicators [Mock.indicator "q" "hash"]] "graph" true Mock.client
    = (Raise (KeyError msg), Mock.client).
Proof.
  destruct (create_vt_graph_rejects Mock.graph_call Mock.graph_id "graph" true Mock.client)
    as [_ Hcolumns].
  apply (Hcolumns [Mock.indicators [Mock.indicator "q" "hash"]]
           (Mock.reset (Mock.indicators [Mock.indicator "q" "hash"]))).
  - vm_compute. reflexivity.
  - intros Hall. apply Forall_cons in Hall as [Hin _]. vm_compute in Hin.
    repeat (apply elem_of_cons in Hin as [Hin|Hin]; [discriminate|]).
    by apply elem_of_nil in Hin.
Defined.



Lemma create_vt_graph_returns_witness :
  ∃ self',
    create_vt_graph Mock.graph_call Mock.graph_id [pd.DataFrame_; Mock.table1]
      "graph" true Mock.client
    = (Return "g0123", self')
    ∧ last (since Mock.client self') = Some EvSaveGraph.
Proof.
  apply (create_vt_graph_returns Mock.graph_call Mock.graph_id
           [pd.DataFrame_; Mock.table1] (Mock.reset Mock.table1) "graph" true Mock.client).
  - reflexivity.
  - vm_compute. reflexivity.
  - vm_compute. repeat constructor.
Defined.

Lemma create_vt_graph_skips_empty_witness :
  create_vt_graph Mock.graph_call Mock.graph_id
    [pd.DataFrame_; Mock.table1; pd.DataFrame_; Mock.table2] "graph" true Mock.client
  = create_vt_graph Mock.graph_call Mock.graph_id
      [Mock.table1; Mock.table2] "graph" true Mock.client.
Proof.
  apply (create_vt_graph_skips_empty Mock.graph_call Mock.graph_id
           [pd.DataFrame_; Mock.table1; pd.DataFrame_; Mock.table2] "graph" true
           Mock.client).
  discriminate.
Defined.

Lemma supported_vt_types_accepted_witness :
  is_Return (VTEntityType_call (inl (VStr "url"))) = true.
Proof.
  destruct supported_vt_types_accepted as [_ Haccepted].
  apply (proj2 (Haccepted (VStr "url"))).
  exists URL. split; [|reflexivity].
  repeat first [apply list_elem_of_here | apply list_elem_of_further].
Defined.

Lemma lookup_ioc_relationships_counted_zero_witness :
  let quiet := {| obj_id := "abc123"; obj_type := "file";
                  obj_attributes := None;
                  obj_relationships :=
                    Some [("contacted_domains",
                           JDict [("meta", JDict [("count", JInt 0)])])] |} in
  lookup_ioc_relationships (fun _ _ => Return quiet) Mock.iterator
    (VStr "abc123") (VStr "file") "contacted_domains" JNull Mock.client
  = (Return pd.DataFrame_,
     extend Mock.client [EvGetObject false "/files/abc123?relationship_counters=true"]).
Proof.
  intros quiet.
  apply (lookup_ioc_relationships_counted_zero (fun _ _ => Return quiet) Mock.iterator
           (VStr "abc123") (VStr "file") FILE "contacted_domains" Mock.client
           quiet
           [("contacted_domains", JDict [("meta", JDict [("count", JInt 0)])])]
           (JDict [("meta", JDict [("count", JInt 0)])])
           (JDict [("count", JInt 0)]));
    reflexivity.
Defined.
